(* ===== verification/_CoqProject ===== *)
-Q . S2P
Prelude.v
PyNum.v
Timing.v
Scheduler.v
Phase.v
Display.v
Render.v
Capture.v
Session.v
Binary64.v
Text.v
