(* ===== verification/Prelude.v ===== *)
(** * Verification of the adaptive traffic-signal controller

    The repository (Smart-traffic-managment-TY-project) is one Python
    program, [src/advanced_traffic_management.py].  It counts the vehicles
    of the four approaches of an intersection on four images (webcam or
    file dialog, YOLOv5 detections), turns each count into a green time,
    and then runs a pygame loop at 30 frames per second that gives the
    green to North, East, South and West in turn, counts the time down by
    [1 / 30] per frame and draws the intersection, the signals and the
    statistics.

    ** Parts of the program and how they interact

    - module initialisation (lines 1-41): the screen size, the colour
      palette and the three fonts, read by the drawing functions;
    - acquisition ([capture_from_file_dialog], [capture_one_by_one_images],
      [count_vehicles], lines 56-111) produces four counts, or the
      sentinel [[0, 0, 0, 0]] on failure;
    - [main] (lines 214-264) picks the input method, rejects
      [[0, 0, 0, 0]], computes the green times with [calculate_timers]
      (lines 43-54), starts the scheduler state (lines 236-239) and runs
      the [while running] loop: background and [draw_intersection]
      (lines 113-151), events, the timer update (lines 250-255),
      [draw_signals] (lines 154-199), the frame counter,
      [draw_stats_panel] (lines 201-212);
    - the loop is the only writer of its locals [active_lane],
      [timer_remaining], [cycles_completed], [total_vehicles],
      [frame_count]; the drawing functions only read them.

    ** Files (in dependency order) and what they model

    - [Prelude.v]: Python's exceptions and results ([PyResult], [py_bind],
      notation [x <- m ;; k] in [py_scope]), list subscription [py_index]
      ([IndexError] out of range), [sum], list [==], [enumerate],
      [range] ([py_range]), a loop whose body may raise ([py_mapM]),
      [next_lane] ([(i + 1) % 4]); the hint databases [traffic] and
      [traffic_rw], the tactic [py_inv] and the shared list lemmas.
    - [PyNum.v]: the class [PyFloat] of the float operations the code uses
      ([float(n)], [+ - * /], [<], [<=]), Python's [min]/[max] and float
      literals; two instances, IEEE binary64 (Rocq's primitive floats,
      which are Python's floats) and exact rationals [Q]; the interface
      [PyFloatExact] (a valuation into [Q] commuting with every
      operation), which [Q] implements and binary64 does not.  Every
      claim about the loop, the display and the texts is stated at
      binary64 or at every instance; [Q] serves only the timing policy,
      whose values are exact doubles, and the real-valued yardstick
      [ceil(30 t)] of a phase length.
    - [Timing.v], [Module Timing]: [calculate_timers] and its loop body
      [calculate_timer].
    - [Scheduler.v], [Module Scheduler]: the loop's [state] record,
      [init_state], [advance] (lines 250-255, step [delta]), [frame] (one
      iteration, step [tick = 1 / 30]), [run] ([n] iterations) and
      [reachable]; the phase counter [phase = 4 * cycles + lane] and the
      real-valued phase length [phase_frames t = ceil(30 t)].
    - [Phase.v], [Module Phase]: a phase described by computation, at any
      instance: [rem_after t k] (the countdown after [k] frames) and
      [phase_length fuel t] (the frame at which it reaches [<= 0]); a
      phase of length [L] hands the green over after exactly [L] frames,
      four of them make a cycle, every reachable state is [in_phase], and
      bounded phases give every lane the green within four phases.
    - [Display.v], [Module Display]: the [signals] table, [light_colors],
      [draw_signals] (what each signal shows), [draw_stats_panel], and
      [countdown_drawable], the check on [light_colors] that a countdown
      value lights exactly the right lamp of the active signal.
    - [Render.v], [Module Render]: the screen size and palette, and the
      drawing calls as a list of commands (colour and shape):
      [draw_intersection], [signal_housing] and [render_signals] (the
      shapes of [draw_signals]), [stats_panel_shapes], and [frame_shapes],
      the shapes of one frame in the order [main] draws them.
    - [Capture.v], [Module Capture]: [count_vehicles] and the two
      acquisition functions, over their collaborators ([cv2.imread], the
      detector) as Section variables; the webcam loop reads a finite list
      of (frame, key) steps and returns [None] while still waiting.
    - [Session.v], [Module Session]: [main], [selected_counts],
      [start_session], [loop_body] (one frame: advance, draw, count) and
      [main_loop] over the per-frame event batches (a [QUIT] ends the loop
      after its frame), with the trace of what each frame drew (the
      signal views, the statistics and the shapes); the
      display safety of a session from any invariant that makes the
      countdown drawable ([main_session_safe]).
    - [Binary64.v], [Module Binary64]: the session at Python's floats, for
      counts up to 1000: a property of every phase is a boolean check of
      the 15 distinct green times ([phases_checked]), which each claim
      evaluates by [vm_compute] in its proof.
    - [Text.v], [Module Text]: the texts of [draw_signals] and
      [draw_stats_panel] (lines 193-212): [str] of an int
      ([py_str_int]), the [.1f] format of a double ([py_format_1f],
      correctly rounded with ties to even), the fonts by size and the
      blits at their positions ([signal_texts], [draw_signals_texts],
      [stats_texts]); the rendered width of a text and [str] of a float
      are Section variables.

    ** What the theorems show

    - Binary64, for counts up to 1000 (the program's own floats): every
      frame of a session shows all signals red but the active one, which
      lights exactly one lamp (yellow at [<= 3] s, green above) and a
      positive countdown ([binary64_display_safety]); every reachable
      state has its lane in [0..3] and a remaining time in
      [(0, timers[lane]]] ([binary64_session_invariant]); a phase lasts
      [ceil(30 t)] frames or one more, 451 frames for 15 s
      ([binary64_phase_drift]); [k] frames in, [cycles_completed] is [k]
      divided by the sum of the four binary64 phase lengths, 1204 frames
      for scenario B instead of the spec's 1200
      ([binary64_cycles_completed]); each lane gets its full green time
      again within [4 * 601] frames of any reachable state
      ([binary64_no_starvation]).
    - Structure, at every instance of [PyFloat]: the loop never raises
      [IndexError] ([session_no_index_error]), the whole program never
      raises once an input method has delivered ([main_never_raises]),
      [advance] moves the phase counter by exactly one on a switch, onto
      the next lane with its full green time, and [cycles_completed]
      grows exactly when the lane wraps to 0 ([advance_phase]); the loop
      stops at the first [QUIT] after drawing that frame
      ([main_quit_stops]); [[0, 0, 0, 0]] is exactly what [main] rejects
      ([main_rejects_all_zero]); the statistics panel shows the sum of
      the counts and a cycle count that never decreases
      ([main_stats_panel]).
    - Acquisition: both captures return four non-negative counts
      ([capture_returns_four]), the webcam loop returns once it has read
      four decisive steps ([capture_one_by_one_images_terminates]) and
      then gives the counts of the captured frames
      ([capture_one_by_one_images_counts]); the file dialog gives each
      readable image its count and an unreadable one 0
      ([unreadable_image_counts_zero]).
    - Timing: green times lie in [[5, 20]] ([calculate_timers_bounds]),
      with their three regimes ([calculate_timer_regimes]) and
      monotonicity ([calculate_timer_monotone]); proved at exact
      arithmetic, whose values here are exact doubles.
    - Rendering: [draw_intersection] never raises and its asphalt covers
      exactly the two roads ([draw_intersection_roads]); the South
      housing does not contain its green lamp ([signal_housing_lamps], a
      defect of lines 164-166).
    - Texts: [draw_signals] blits, for each signal in table order, its
      direction, its count and the [.1f] countdown (active signal) or its
      green time ([draw_signals_texts_spec]); at binary64 no frame of a
      session shows a negative countdown, not even [-0.0]
      ([binary64_countdown_display]), and the countdown of a phase is
      shown as unsigned texts that never increase and end with [0.0] on
      the last frame, while the lane still has the light
      ([binary64_countdown_texts]).

    ** Bounds and fuel

    [run] and [main_loop] recurse on the number of frames and on the list
    of event batches, the webcam loop on its list of steps; the recursion
    of the Python [while] loops is thus bounded by the input, and "the
    loop is still running" is a result ([StillRunning], [None]) rather
    than a missing one.  The only fuel is that of [Phase.phase_length],
    the search for the end of a phase: [Binary64.phase_fuel] = 700
    frames, more than the 601 frames of the longest phase (20 s at
    binary64), which the computed check [all_phases_bounded] confirms
    for every green time.
    Counts are bounded by 1000 in [Binary64.v] only: YOLOv5's [AutoShape]
    keeps at most [max_det = 1000] detections per image, so
    [count_vehicles] never exceeds it; counts from 14 on all give 20.0,
    which the check uses to examine the 15 distinct cases only.  Lanes
    are [nat] (always below 4), counts and vehicle totals are Python ints
    ([Z], unbounded), times are the [PyFloat] instance's numbers, pixel
    coordinates are [Z].

    ** Not modelled

    What remains is I/O or library code, which no faithful definition
    can give more than the collaborators above: the pixels pygame
    produces from the commands (anti-aliasing, [border_radius]), the
    glyphs of the fonts and the width of a rendered text, [str] of a
    float (CPython's shortest round-trip repr, shown for the inactive
    signals' total time), the console prints, the Tk dialog, the OpenCV
    windows and the camera release, the YOLOv5 inference itself (a
    collaborator that returns the detections' class column),
    [pygame.init], the display mode and the model loading of lines 9-41
    (including the exit when [torch.hub.load] fails), and pygame's
    clock: none of them changes the modelled state.  The safety of the
    display at binary64 is proved for counts up to 1000 by computation;
    a proof for unbounded counts would need a theory of the rounding of
    binary64 subtraction, which the standard library's primitive floats
    do not provide. *)


From Stdlib Require Import ZArith List Lia.
Import ListNotations.

Declare Scope py_scope.
Delimit Scope py_scope with py.
Open Scope py_scope.

(** ** Python exceptions and results *)

(** The only exception the modelled core can raise: a list subscription
    [timers[active_lane]] out of range. *)
Inductive py_exception : Type :=
| IndexError.

(** A computation that returns a value or raises a Python exception. *)
Inductive PyResult (A : Type) : Type :=
| Ok (a : A)
| Raise (e : py_exception).
Arguments Ok {A} a.
Arguments Raise {A} e.

Definition py_bind {A B : Type} (m : PyResult A) (k : A -> PyResult B) : PyResult B :=
  match m with
  | Ok a => k a
  | Raise e => Raise e
  end.

Notation "x <- m ;; k" := (py_bind m (fun x => k))
  (at level 61, m at next level, right associativity) : py_scope.

(** Python's subscription [l[i]] for a non-negative index [i]. *)
Definition py_index {A : Type} (l : list A) (i : nat) : PyResult A :=
  match nth_error l i with
  | Some a => Ok a
  | None => Raise IndexError
  end.

(** Python's builtin [sum] on a list of ints: a left fold from [0]. *)
Definition py_sum (l : list Z) : Z := fold_left Z.add l 0%Z.

(** Python's [==] on two lists of ints. *)
Fixpoint py_list_eqb (l1 l2 : list Z) : bool :=
  match l1, l2 with
  | [], [] => true
  | x :: xs, y :: ys => Z.eqb x y && py_list_eqb xs ys
  | _, _ => false
  end.

(** Python's [enumerate(l)] as a list of (index, element) pairs. *)
Definition py_enumerate {A : Type} (l : list A) : list (nat * A) :=
  combine (seq 0 (length l)) l.

(** The intersection has four approaches; the successor of a lane is
    [(active_lane + 1) % 4]. *)
Definition next_lane (i : nat) : nat := (i + 1) mod 4.

(** Python's [range(start, stop, step)] for a positive [step]: the
    [ceil((stop - start) / step)] values [start + step * i]. *)
Definition py_range (start stop step : Z) : list Z :=
  map (fun i => start + step * Z.of_nat i)%Z
      (seq 0 (Z.to_nat ((stop - start + step - 1) / step))).

(** A loop whose body may raise: the results in order, or the first
    exception. *)
Fixpoint py_mapM {A B : Type} (f : A -> PyResult B) (l : list A) : PyResult (list B) :=
  match l with
  | [] => Ok []
  | a :: l' => b <- f a ;; bs <- py_mapM f l' ;; Ok (b :: bs)
  end.

Create HintDb traffic.
Create Rewrite HintDb traffic_rw.

(** ** Generic lemmas *)

Lemma py_bind_ok {A B} (a : A) (k : A -> PyResult B) : py_bind (Ok a) k = k a.
Proof. reflexivity. Qed.

Lemma py_bind_raise {A B} e (k : A -> PyResult B) : py_bind (Raise e) k = Raise e.
Proof. reflexivity. Qed.

Lemma py_bind_assoc {A B C} (m : PyResult A) (f : A -> PyResult B) (g : B -> PyResult C) :
  py_bind (py_bind m f) g = py_bind m (fun a => py_bind (f a) g).
Proof. destruct m; reflexivity. Qed.

Lemma py_bind_Ok_inv {A B} (m : PyResult A) (k : A -> PyResult B) b :
  py_bind m k = Ok b -> exists a, m = Ok a /\ k a = Ok b.
Proof. destruct m; simpl; [eauto | discriminate]. Qed.

Lemma py_index_lt {A} (l : list A) i :
  i < length l -> exists a, py_index l i = Ok a /\ In a l.
Proof.
  intros Hi. unfold py_index.
  destruct (nth_error l i) as [a|] eqn:E.
  - exists a. split; [reflexivity | eapply nth_error_In; eauto].
  - apply nth_error_None in E. lia.
Qed.

Lemma py_index_ge {A} (l : list A) i :
  length l <= i -> py_index l i = Raise IndexError.
Proof.
  intros Hi. unfold py_index. rewrite (proj2 (nth_error_None l i) Hi). reflexivity.
Qed.

Lemma py_index_Ok_In {A} (l : list A) i a : py_index l i = Ok a -> In a l.
Proof.
  unfold py_index. destruct (nth_error l i) eqn:E; intros H; inversion H; subst.
  eapply nth_error_In; eauto.
Qed.

Lemma py_index_map {A B} (f : A -> B) l i :
  py_index (map f l) i = py_bind (py_index l i) (fun a => Ok (f a)).
Proof. unfold py_index. rewrite nth_error_map. destruct (nth_error l i); reflexivity. Qed.

Lemma fold_left_add_shift (l : list Z) (a : Z) :
  fold_left Z.add l a = (a + fold_left Z.add l 0)%Z.
Proof.
  revert a. induction l as [|x l IH]; intros a; simpl; [lia|].
  rewrite (IH (a + x)%Z), (IH x). lia.
Qed.

(** The Python idiom [out = []; for x in l: out.append(f(x))]. *)
Lemma fold_left_append_map {A B} (f : A -> B) (l : list A) (acc : list B) :
  fold_left (fun out x => out ++ [f x]) l acc = acc ++ map f l.
Proof.
  revert acc. induction l as [|x l IH]; intros acc; simpl.
  - now rewrite app_nil_r.
  - rewrite IH, <- app_assoc. reflexivity.
Qed.

Lemma py_sum_cons x l : py_sum (x :: l) = (x + py_sum l)%Z.
Proof. unfold py_sum. simpl. apply fold_left_add_shift. Qed.

Lemma py_sum_ones {A} (l : list A) : py_sum (map (fun _ => 1%Z) l) = Z.of_nat (length l).
Proof.
  induction l as [|x l IH]; [reflexivity|].
  cbn [map length]. rewrite py_sum_cons, IH. lia.
Qed.

Lemma py_sum_nonneg l : Forall (fun c => 0 <= c)%Z l -> (0 <= py_sum l)%Z.
Proof.
  induction 1 as [|x l Hx _ IH]; [reflexivity|]. rewrite py_sum_cons. lia.
Qed.

Lemma py_list_eqb_spec l1 l2 : py_list_eqb l1 l2 = true <-> l1 = l2.
Proof.
  revert l2. induction l1 as [|x l1 IH]; intros [|y l2]; simpl;
    try (split; congruence).
  rewrite Bool.andb_true_iff, Z.eqb_eq, IH. split; [intros [-> ->]|intros H; inversion H]; auto.
Qed.

Lemma nth_error_seq_combine {A} (l : list A) s i :
  nth_error (combine (seq s (length l)) l) i = option_map (pair (s + i)) (nth_error l i).
Proof.
  revert s i. induction l as [|x l IH]; intros s [|i]; simpl; try reflexivity.
  - f_equal. f_equal. lia.
  - rewrite IH. destruct (nth_error l i); simpl; [f_equal; f_equal; lia | reflexivity].
Qed.

Lemma nth_error_py_enumerate {A} (l : list A) i :
  nth_error (py_enumerate l) i = option_map (pair i) (nth_error l i).
Proof. unfold py_enumerate. apply nth_error_seq_combine. Qed.

Lemma length_py_enumerate {A} (l : list A) : length (py_enumerate l) = length l.
Proof. unfold py_enumerate. rewrite length_combine, length_seq. lia. Qed.

Lemma next_lane_lt i : next_lane i < 4.
Proof. unfold next_lane. apply Nat.mod_upper_bound. lia. Qed.

Lemma next_lane_small i : i < 3 -> next_lane i = i + 1.
Proof. intros Hi. unfold next_lane. apply Nat.mod_small. lia. Qed.

Lemma next_lane_zero_iff i : i < 4 -> (next_lane i = 0 <-> i = 3).
Proof.
  intros Hi. unfold next_lane.
  destruct i as [|[|[|[|i]]]]; simpl; try lia; split; congruence.
Qed.

(** [n] lane switches from lane [i] lead to lane [(i + n) mod 4]. *)
Lemma next_lane_iter n i : i < 4 -> Nat.iter n next_lane i = (i + n) mod 4.
Proof.
  intros Hi. induction n as [|n IH]; cbn [Nat.iter].
  - rewrite Nat.add_0_r, Nat.mod_small; [reflexivity | exact Hi].
  - change (next_lane (Nat.iter n next_lane i) = (i + S n) mod 4).
    rewrite IH. unfold next_lane. rewrite Nat.Div0.add_mod_idemp_l. f_equal. lia.
Qed.

(** The values of [range(start, stop, step)]. *)
Lemma py_range_In (start stop step z : Z) :
  (0 < step)%Z ->
  In z (py_range start stop step) <->
  exists i, (0 <= i)%Z /\ z = (start + step * i)%Z /\ (z < stop)%Z.
Proof.
  intros Hs. unfold py_range. rewrite in_map_iff. split.
  - intros (i & <- & Hi). apply in_seq in Hi. exists (Z.of_nat i).
    split; [lia|]. split; [reflexivity|].
    assert (Hq : (Z.of_nat i + 1 <= (stop - start + step - 1) / step)%Z) by lia.
    pose proof (Z.mul_div_le (stop - start + step - 1) step Hs). nia.
  - intros (i & Hi & -> & Hlt). exists (Z.to_nat i). rewrite Z2Nat.id by exact Hi.
    split; [reflexivity|]. apply in_seq. split; [lia|].
    assert (Hq : (i + 1 <= (stop - start + step - 1) / step)%Z)
      by (apply Z.div_le_lower_bound; [exact Hs | nia]).
    lia.
Qed.

Lemma length_py_range (start stop step : Z) :
  length (py_range start stop step) = Z.to_nat ((stop - start + step - 1) / step).
Proof. unfold py_range. rewrite length_map, length_seq. reflexivity. Qed.

Lemma Forall2_in_r {A B} (R : A -> B -> Prop) l l' b :
  Forall2 R l l' -> In b l' -> exists a, In a l /\ R a b.
Proof.
  intros HF Hin. induction HF as [|a b' l l' Hr _ IH]; [destruct Hin|].
  destruct Hin as [<-|Hin]; [exists a; split; [left|]; auto|].
  destruct (IH Hin) as (a' & Ha & Hr'). exists a'. split; [right|]; auto.
Qed.

Lemma Forall2_in_l {A B} (R : A -> B -> Prop) l l' a :
  Forall2 R l l' -> In a l -> exists b, In b l' /\ R a b.
Proof.
  intros HF Hin. induction HF as [|a' b l l' Hr _ IH]; [destruct Hin|].
  destruct Hin as [<-|Hin]; [exists b; split; [left|]; auto|].
  destruct (IH Hin) as (b' & Hb & Hr'). exists b'. split; [right|]; auto.
Qed.

Lemma py_mapM_Forall2 {A B} (f : A -> PyResult B) l l' :
  py_mapM f l = Ok l' -> Forall2 (fun a b => f a = Ok b) l l'.
Proof.
  revert l'. induction l as [|a l IH]; intros l' Hm; cbn in Hm.
  - injection Hm as <-. constructor.
  - destruct (f a) as [b|e] eqn:Hf; [|discriminate]. cbn in Hm.
    destruct (py_mapM f l) as [bs|e]; [|discriminate]. injection Hm as <-.
    constructor; [exact Hf | apply IH; reflexivity].
Qed.

Lemma py_mapM_ok {A B} (f : A -> PyResult B) l :
  (forall a, In a l -> exists b, f a = Ok b) -> exists l', py_mapM f l = Ok l'.
Proof.
  induction l as [|a l IH]; intros Hall; cbn; [eexists; reflexivity|].
  destruct (Hall a (or_introl eq_refl)) as (b & ->). cbn.
  destruct IH as (l' & ->); [intros x Hx; apply Hall; right; exact Hx|].
  eexists. reflexivity.
Qed.

#[export] Hint Resolve next_lane_lt py_sum_nonneg : traffic.
#[export] Hint Rewrite @py_bind_ok @py_bind_raise @py_bind_assoc py_sum_cons : traffic_rw.

(** [py_inv H] splits a hypothesis [py_bind m k = Ok b] into the result
    of [m] and the continuation. *)
Ltac py_inv H :=
  let a := fresh "a" in
  let Ha := fresh "Ha" in
  let Hk := fresh "Hk" in
  apply py_bind_Ok_inv in H; destruct H as (a & Ha & Hk).
