(* ===== verification/PyNum.v ===== *)
(** * Python floats: the numeric interface of the controller

    The timing code of [src/advanced_traffic_management.py] computes with
    Python [float]s: [count * time_per_car], [min]/[max], the per-frame
    [timer_remaining -= 1 / 30] and the tests [timer_remaining <= 0] and
    [timer_remaining > 3].  This file states those operations once, as the
    class [PyFloat], so that every component is written a single time and
    can be run at two instances:
    - [PyFloat_float]: Rocq's primitive IEEE-754 binary64 floats, which are
      Python's floats (conversion of ints by round-to-nearest-even);
    - [PyFloat_Q]: exact rationals, the real-valued reading of the spec.
    The class [PyFloatExact] is the contract "this instance computes
    exactly": a valuation into [Q] that commutes with every operation.
    The quantitative theorems of the other files are proved against it;
    [PyFloat_Q] discharges it, binary64 does not (see [Scheduler.v]). *)

From Stdlib Require Import ZArith QArith Qminmax Lqa Lia Floats.
From S2P Require Import Prelude.

(** ** The operations of Python's [float] used by the program *)

Class PyFloat (T : Type) : Type := {
  py_of_Z : Z -> T;            (** [float(n)], implicit in [int * float] *)
  py_add : T -> T -> T;
  py_sub : T -> T -> T;
  py_mul : T -> T -> T;
  py_div : T -> T -> T;        (** true division [/]; the program only
                                   divides by the literals [30] and [10^e],
                                   so [ZeroDivisionError] is not modelled *)
  py_ltb : T -> T -> bool;     (** [<] *)
  py_leb : T -> T -> bool      (** [<=] *)
}.

Section Builtins.
Context {T : Type} `{PyFloat T}.

(** The decimal literal [m]e-[e], e.g. [1.5] is [py_lit 15 1]: the
    correctly rounded value of [m / 10^e], which is what [m / 10^e]
    computes when [m] and [10^e] are exact. *)
Definition py_lit (m : Z) (e : nat) : T := py_div (py_of_Z m) (py_of_Z (10 ^ Z.of_nat e)).

(** Python's builtins [min(a, b)] and [max(a, b)]: the first argument is
    kept unless the second is strictly smaller (resp. greater). *)
Definition py_min (a b : T) : T := if py_ltb b a then b else a.
Definition py_max (a b : T) : T := if py_ltb a b then b else a.

End Builtins.

(** ** IEEE-754 binary64: Python's floats *)

(** [float(n)] for an int [n]: rounded to nearest, ties to even; an int
    beyond the float range gives an infinity where Python raises
    [OverflowError] (counts of vehicles never get there). *)
Definition float_of_Z (z : Z) : float :=
  SF2Prim (SpecFloat.binary_normalize FloatOps.prec FloatOps.emax z 0 false).

#[export] Instance PyFloat_float : PyFloat float := {
  py_of_Z := float_of_Z;
  py_add := PrimFloat.add;
  py_sub := PrimFloat.sub;
  py_mul := PrimFloat.mul;
  py_div := PrimFloat.div;
  py_ltb := PrimFloat.ltb;
  py_leb := PrimFloat.leb
}.

(** ** Exact rationals, kept in lowest terms *)

#[export] Instance PyFloat_Q : PyFloat Q := {
  py_of_Z := inject_Z;
  py_add a b := Qred (a + b);
  py_sub a b := Qred (a - b);
  py_mul a b := Qred (a * b);
  py_div a b := Qred (a / b);
  py_ltb a b := negb (Qle_bool b a);
  py_leb := Qle_bool
}.

(** ** The contract of an exact instance *)

Class PyFloatExact (T : Type) `{PyFloat T} : Type := {
  qval : T -> Q;
  qval_of_Z z : qval (py_of_Z z) == inject_Z z;
  qval_add a b : qval (py_add a b) == qval a + qval b;
  qval_sub a b : qval (py_sub a b) == qval a - qval b;
  qval_mul a b : qval (py_mul a b) == qval a * qval b;
  qval_div a b : qval (py_div a b) == qval a / qval b;
  qval_ltb a b : py_ltb a b = true <-> qval a < qval b;
  qval_leb a b : py_leb a b = true <-> qval a <= qval b
}.

Lemma Q_ltb_iff (a b : Q) : negb (Qle_bool b a) = true <-> a < b.
Proof.
  rewrite Bool.negb_true_iff. split.
  - intros Hf. apply Qnot_le_lt. intros Hle. apply Qle_bool_iff in Hle. congruence.
  - intros Hlt. destruct (Qle_bool b a) eqn:E; [|reflexivity].
    apply Qle_bool_iff in E. exfalso. apply (Qlt_not_le _ _ Hlt E).
Qed.

#[export] Instance PyFloatExact_Q : PyFloatExact Q := {
  qval q := q;
  qval_of_Z z := Qeq_refl _;
  qval_add a b := Qred_correct _;
  qval_sub a b := Qred_correct _;
  qval_mul a b := Qred_correct _;
  qval_div a b := Qred_correct _;
  qval_ltb := Q_ltb_iff;
  qval_leb := Qle_bool_iff
}.

Lemma inject_Z_le (x y : Z) : (x <= y)%Z -> inject_Z x <= inject_Z y.
Proof. now rewrite <- Zle_Qle. Qed.

Lemma inject_nat_succ (k : nat) :
  inject_Z (Z.of_nat (S k)) == inject_Z (Z.of_nat k) + 1.
Proof. rewrite Nat2Z.inj_succ, <- Z.add_1_r, inject_Z_plus. reflexivity. Qed.

Lemma inject_Z_pred (c : Z) : inject_Z (c - 1) == inject_Z c - 1.
Proof. rewrite <- Z.add_opp_r, inject_Z_plus, inject_Z_opp. reflexivity. Qed.

Lemma inject_Z_pos (c : Z) : 0 < inject_Z c -> (1 <= c)%Z.
Proof. intros Hc. change 0 with (inject_Z 0) in Hc. rewrite <- Zlt_Qlt in Hc. lia. Qed.

Lemma inject_nat_nonneg (k : nat) : 0 <= inject_Z (Z.of_nat k).
Proof. apply (inject_Z_le 0). lia. Qed.

(** ** Consequences of exactness *)

Section Exact.
Context {T : Type} `{PyFloatExact T}.

Lemma py_ltb_false a b : py_ltb a b = false <-> qval b <= qval a.
Proof.
  split.
  - intros Hf. apply Qnot_lt_le. intros Hlt. apply qval_ltb in Hlt. congruence.
  - intros Hle. destruct (py_ltb a b) eqn:E; [|reflexivity].
    apply qval_ltb in E. exfalso. apply (Qlt_not_le _ _ E Hle).
Qed.

Lemma py_leb_false a b : py_leb a b = false <-> qval b < qval a.
Proof.
  split.
  - intros Hf. apply Qnot_le_lt. intros Hle. apply qval_leb in Hle. congruence.
  - intros Hlt. destruct (py_leb a b) eqn:E; [|reflexivity].
    apply qval_leb in E. exfalso. apply (Qlt_not_le _ _ Hlt E).
Qed.

Lemma qval_py_min a b : qval (py_min a b) == Qmin (qval a) (qval b).
Proof.
  unfold py_min. destruct (py_ltb b a) eqn:E.
  - apply qval_ltb in E. rewrite Q.min_r; [reflexivity | lra].
  - apply py_ltb_false in E. rewrite Q.min_l; [reflexivity | lra].
Qed.

Lemma qval_py_max a b : qval (py_max a b) == Qmax (qval a) (qval b).
Proof.
  unfold py_max. destruct (py_ltb a b) eqn:E.
  - apply qval_ltb in E. rewrite Q.max_r; [reflexivity | lra].
  - apply py_ltb_false in E. rewrite Q.max_l; [reflexivity | lra].
Qed.

Lemma qval_py_lit m e :
  qval (py_lit m e) == inject_Z m / inject_Z (10 ^ Z.of_nat e).
Proof. unfold py_lit. rewrite qval_div, !qval_of_Z. reflexivity. Qed.

End Exact.
