(* ===== verification/Timing.v ===== *)
(** * Timing policy: [calculate_timers]

    Models [calculate_timers] (lines 43-54 of
    [src/advanced_traffic_management.py]): every vehicle count becomes a
    green time [max(min_time, min(max_time, count * time_per_car))], with
    [time_per_car = 1.5], [min_time = 5.0], [max_time = 20.0].  The loop
    that appends one timer per count is [calculate_timers]; it equals the
    [map] of the per-count rule [calculate_timer].  The bounds, the closed
    form and the monotonicity are proved for any exact instance of
    [PyFloat]: for the counts the detector can return, [count * 1.5],
    [5.0] and [20.0] are exact doubles, so they are the values the
    program computes; [Binary64.v] computes the binary64 green times of
    every count up to 1000 with the program's own float operations. *)

From Stdlib Require Import ZArith QArith Qminmax Lqa Floats List Lia.
Import ListNotations.
From S2P Require Import Prelude PyNum.

Local Open Scope Q_scope.

Module Timing.

Section Policy.
Context {T : Type} `{PyFloat T}.

Definition time_per_car : T := py_lit 15 1.
Definition min_time : T := py_lit 50 1.
Definition max_time : T := py_lit 200 1.

(** The body of the loop, line 51. *)
Definition calculate_timer (count : Z) : T :=
  py_max min_time (py_min max_time (py_mul (py_of_Z count) time_per_car)).

(** The loop of lines 49-54: [timers.append(timer)] for each count. *)
Definition calculate_timers (car_counts : list Z) : list T :=
  fold_left (fun timers count => timers ++ [calculate_timer count]) car_counts [].

End Policy.

(** ** The loop is a [map] *)

Lemma calculate_timers_map {T} `{PyFloat T} l :
  calculate_timers l = map calculate_timer l.
Proof. unfold calculate_timers. rewrite fold_left_append_map. reflexivity. Qed.

Lemma length_calculate_timers {T} `{PyFloat T} l :
  length (calculate_timers l) = length l.
Proof. rewrite calculate_timers_map. apply length_map. Qed.

Lemma nth_error_calculate_timers {T} `{PyFloat T} l i :
  nth_error (calculate_timers l) i = option_map calculate_timer (nth_error l i).
Proof. rewrite calculate_timers_map, nth_error_map. reflexivity. Qed.

(** ** Exact arithmetic *)

Section ExactPolicy.
Context {T : Type} `{PyFloatExact T}.

Lemma qval_time_per_car : qval time_per_car == 3 # 2.
Proof. unfold time_per_car. rewrite qval_py_lit. reflexivity. Qed.

Lemma qval_min_time : qval min_time == 5.
Proof. unfold min_time. rewrite qval_py_lit. reflexivity. Qed.

Lemma qval_max_time : qval max_time == 20.
Proof. unfold max_time. rewrite qval_py_lit. reflexivity. Qed.

(** For an exact instance, the green time of a count is the clamp of
    [count * 1.5] to [[5, 20]]. *)
Lemma qval_calculate_timer (count : Z) :
  qval (calculate_timer count) == Qmax 5 (Qmin 20 (inject_Z count * (3 # 2))).
Proof.
  unfold calculate_timer.
  rewrite qval_py_max, qval_py_min, qval_mul, qval_of_Z,
    qval_time_per_car, qval_min_time, qval_max_time.
  reflexivity.
Qed.

Lemma calculate_timer_range (count : Z) :
  5 <= qval (calculate_timer count) <= 20.
Proof.
  rewrite qval_calculate_timer.
  split; [apply Q.le_max_l|]. apply Q.max_lub; [lra | apply Q.le_min_l].
Qed.

Lemma calculate_timers_range l :
  Forall (fun t => 5 <= qval t <= 20) (calculate_timers l).
Proof.
  rewrite calculate_timers_map. apply Forall_map, Forall_forall.
  intros c _. apply calculate_timer_range.
Qed.

(** C14: [calculate_timers] returns one green time per count, in the same
    order, and every one lies between [min_time = 5] and [max_time = 20]
    seconds, whatever the counts (negative ones included). *)
Theorem calculate_timers_bounds (car_counts : list Z) :
  length (calculate_timers car_counts) = length car_counts /\
  (forall i c, nth_error car_counts i = Some c ->
     exists t, nth_error (calculate_timers car_counts) i = Some t /\
               t = calculate_timer c /\ 5 <= qval t <= 20).
Proof.
  split; [apply length_calculate_timers|].
  intros i c Hc. exists (calculate_timer c).
  rewrite nth_error_calculate_timers, Hc. repeat split; apply calculate_timer_range.
Qed.

(** C22: the green time is non-decreasing in the vehicle count. *)
Theorem calculate_timer_monotone (c1 c2 : Z) :
  (c1 <= c2)%Z -> qval (calculate_timer c1) <= qval (calculate_timer c2).
Proof.
  intros Hc. rewrite !qval_calculate_timer.
  apply Q.max_le_compat_l, Q.min_le_compat_l.
  apply Qmult_le_compat_r; [apply inject_Z_le; exact Hc | discriminate].
Qed.

(** C21: the three regimes of the rule: at most 3 vehicles give the
    minimum 5 s, at least 14 vehicles the maximum 20 s, and in between the
    time is exactly [1.5] s per vehicle. *)
Theorem calculate_timer_regimes (count : Z) :
  ((count <= 3)%Z -> qval (calculate_timer count) == 5) /\
  ((14 <= count)%Z -> qval (calculate_timer count) == 20) /\
  ((4 <= count <= 13)%Z -> qval (calculate_timer count) == inject_Z count * (3 # 2)).
Proof.
  rewrite qval_calculate_timer.
  repeat split; intros Hc.
  - apply Q.max_l. apply Q.min_le_iff. right.
    assert (inject_Z count <= 3) by (apply (inject_Z_le _ 3) + apply (inject_Z_le 14); exact Hc). lra.
  - rewrite Q.min_l; [apply Q.max_r; lra|].
    assert (14 <= inject_Z count) by (apply (inject_Z_le _ 3) + apply (inject_Z_le 14); exact Hc). lra.
  - assert (4 <= inject_Z count) by (apply (inject_Z_le 4) + apply (inject_Z_le _ 13); lia).
    assert (inject_Z count <= 13) by (apply (inject_Z_le 4) + apply (inject_Z_le _ 13); lia).
    rewrite Q.min_r by lra. apply Q.max_r. lra.
Qed.

End ExactPolicy.

(** ** Witnesses at exact rationals *)

Lemma calculate_timers_bounds_witness :
  nth_error [10; 2; 10; 2]%Z 1 = Some 2%Z /\
  exists t, nth_error (@calculate_timers Q _ [10; 2; 10; 2]%Z) 1 = Some t /\
            t = calculate_timer 2 /\ 5 <= qval t <= 20.
Proof.
  split; [reflexivity|].
  exact (proj2 (calculate_timers_bounds [10; 2; 10; 2]%Z) 1%nat 2%Z eq_refl).
Defined.

Lemma calculate_timer_monotone_witness :
  (4 <= 9)%Z /\ qval (@calculate_timer Q _ 4) <= qval (@calculate_timer Q _ 9).
Proof. split; [lia | apply calculate_timer_monotone; lia]. Defined.

Lemma calculate_timer_regimes_witness :
  (4 <= 10 <= 13)%Z /\ qval (@calculate_timer Q _ 10) == inject_Z 10 * (3 # 2).
Proof.
  split; [lia|].
  exact (proj2 (proj2 (calculate_timer_regimes 10)) ltac:(lia)).
Defined.

End Timing.
