(* ===== verification/Scheduler.v ===== *)
(** * Signal scheduler: the per-frame update of [main]

    Models the state that [main] (lines 214-262 of
    [src/advanced_traffic_management.py]) threads through its
    [while running] loop, and the loop body's update of it:
    - [state]: the locals [active_lane], [timer_remaining],
      [cycles_completed], [total_vehicles], [frame_count];
    - [init_state]: lines 236-239, [total_vehicles = sum(car_counts)],
      [active_lane = 0], [timer_remaining = timers[active_lane]];
    - [advance]: lines 250-255, with the step [1 / 30] of line 250 as the
      parameter [delta]; [frame] is one iteration (lines 250-258:
      [advance] by [tick = 1 / 30], then [frame_count += 1]);
    - [run n]: [n] iterations; [reachable]: the states of any run.
    The subscription [timers[active_lane]] raises [IndexError] when the
    list is too short: it is a [PyResult].  The theorems hold at every
    instance of [PyFloat], binary64 included: the loop never raises and
    [advance] moves a phase counter by at most one.  How many frames a
    phase lasts depends on the rounding of the instance: [Phase.v]
    describes it by computation and [Binary64.v] computes it for
    Python's floats.  [phase_frames] is the real-valued [ceil(30 r)] of
    the spec, the yardstick of the binary64 phase lengths. *)

From Stdlib Require Import ZArith QArith Qround Lqa Floats List Lia.
Import ListNotations.
From S2P Require Import Prelude PyNum Timing.

Local Open Scope nat_scope.

Module Scheduler.

Section Loop.
Context {T : Type} `{PyFloat T}.

Record state : Type := mkState {
  active_lane : nat;
  timer_remaining : T;
  cycles_completed : nat;
  total_vehicles : Z;
  frame_count : nat
}.

(** [1 / 30]: the time step of one frame (line 250; [clock.tick(30)]). *)
Definition tick : T := py_div (py_of_Z 1) (py_of_Z 30).

(** Lines 236-239 (with the initialisations of lines 217-219). *)
Definition init_state (car_counts : list Z) (timers : list T) : PyResult state :=
  r <- py_index timers 0 ;;
  Ok (mkState 0 r 0 (py_sum car_counts) 0).

(** Lines 250-255, the decrement being [delta]. *)
Definition advance (timers : list T) (delta : T) (st : state) : PyResult state :=
  let remaining := py_sub (timer_remaining st) delta in
  if py_leb remaining (py_of_Z 0) then
    let lane := next_lane (active_lane st) in
    r <- py_index timers lane ;;
    Ok (mkState lane r
          (if Nat.eqb lane 0 then S (cycles_completed st) else cycles_completed st)
          (total_vehicles st) (frame_count st))
  else
    Ok (mkState (active_lane st) remaining (cycles_completed st)
          (total_vehicles st) (frame_count st)).

(** One iteration of the loop, lines 250-258 (drawing has no effect on
    the state). *)
Definition frame (timers : list T) (st : state) : PyResult state :=
  st' <- advance timers tick st ;;
  Ok (mkState (active_lane st') (timer_remaining st') (cycles_completed st')
        (total_vehicles st') (S (frame_count st'))).

Fixpoint run (timers : list T) (n : nat) (st : state) : PyResult state :=
  match n with
  | O => Ok st
  | S n' => st' <- frame timers st ;; run timers n' st'
  end.

(** The states the loop goes through from [st0]. *)
Inductive reachable (timers : list T) (st0 : state) : state -> Prop :=
| reach_init : reachable timers st0 st0
| reach_frame st st' :
    reachable timers st0 st -> frame timers st = Ok st' -> reachable timers st0 st'.

(** The phase counter: how many phases have begun since the start. *)
Definition phase (st : state) : nat := 4 * cycles_completed st + active_lane st.

(** Whether the decrement ends the active phase. *)
Definition switches (st : state) (delta : T) : bool :=
  py_leb (py_sub (timer_remaining st) delta) (py_of_Z 0).

(** The well-formedness the loop needs: four timers, a lane in range. *)
Definition wf (timers : list T) (st : state) : Prop :=
  length timers = 4 /\ active_lane st < 4.

End Loop.

Arguments state T : clear implicits.

Section ExactDefs.
Context {T : Type} `{PyFloatExact T}.
Local Open Scope Q_scope.

(** The frames a green time of [r] seconds lasts at the 30 frames per
    second of [clock.tick(30)] when the countdown is exact: the least [n]
    with [r - n / 30 <= 0], that is [ceil(30 r)]. *)
Definition phase_frames (r : T) : nat := Z.to_nat (Qceiling (qval r * 30)).

End ExactDefs.

(** ** Structural properties, at every instance *)

Section Structure.
Context {T : Type} `{PyFloat T}.
Implicit Types (timers : list T) (st : state T).

Lemma run_add timers m n st :
  run timers (m + n) st = py_bind (run timers m st) (run timers n).
Proof.
  revert st. induction m as [|m IH]; intros st; simpl; [reflexivity|].
  destruct (frame timers st); simpl; [apply IH | reflexivity].
Qed.

Lemma advance_countdown timers delta st :
  switches st delta = false ->
  advance timers delta st =
  Ok (mkState (active_lane st) (py_sub (timer_remaining st) delta)
        (cycles_completed st) (total_vehicles st) (frame_count st)).
Proof. unfold advance, switches. intros ->. reflexivity. Qed.

Lemma frame_countdown timers st :
  switches st tick = false ->
  frame timers st =
  Ok (mkState (active_lane st) (py_sub (timer_remaining st) tick)
        (cycles_completed st) (total_vehicles st) (S (frame_count st))).
Proof. intros Hsw. unfold frame. rewrite (advance_countdown _ _ _ Hsw). reflexivity. Qed.

Lemma advance_switch timers delta st r :
  switches st delta = true ->
  nth_error timers (next_lane (active_lane st)) = Some r ->
  advance timers delta st =
  Ok (mkState (next_lane (active_lane st)) r
        (if Nat.eqb (next_lane (active_lane st)) 0
         then S (cycles_completed st) else cycles_completed st)
        (total_vehicles st) (frame_count st)).
Proof. unfold advance, switches, py_index. intros -> ->. reflexivity. Qed.

Lemma frame_switch timers st r :
  switches st tick = true ->
  nth_error timers (next_lane (active_lane st)) = Some r ->
  frame timers st =
  Ok (mkState (next_lane (active_lane st)) r
        (if Nat.eqb (next_lane (active_lane st)) 0
         then S (cycles_completed st) else cycles_completed st)
        (total_vehicles st) (S (frame_count st))).
Proof. intros Hsw Hr. unfold frame. rewrite (advance_switch _ _ _ _ Hsw Hr). reflexivity. Qed.

Lemma next_lane_phase l c :
  l < 4 ->
  4 * (if Nat.eqb (next_lane l) 0 then S c else c) + next_lane l = S (4 * c + l).
Proof.
  intros Hl. destruct (Nat.eqb_spec (next_lane l) 0) as [E|E].
  - rewrite E. apply next_lane_zero_iff in E; [|exact Hl]. lia.
  - assert (l < 3) by (destruct (Nat.eq_dec l 3) as [E3|]; [|lia];
      exfalso; apply E, next_lane_zero_iff; assumption).
    rewrite next_lane_small by assumption. lia.
Qed.

Lemma advance_wf timers delta st :
  wf timers st -> exists st', advance timers delta st = Ok st' /\ wf timers st'.
Proof.
  intros [Hlen Hlane].
  destruct (switches st delta) eqn:Hsw.
  - destruct (nth_error timers (next_lane (active_lane st))) as [r|] eqn:Hr.
    + eexists. split; [exact (advance_switch timers delta st r Hsw Hr)|].
      split; [exact Hlen | apply next_lane_lt].
    + apply nth_error_None in Hr. pose proof (next_lane_lt (active_lane st)). lia.
  - eexists. split; [exact (advance_countdown timers delta st Hsw)|]. split; assumption.
Qed.

Lemma frame_wf timers st :
  wf timers st -> exists st', frame timers st = Ok st' /\ wf timers st'.
Proof.
  intros Hwf. destruct (advance_wf timers tick st Hwf) as (st1 & Hadv & [Hlen Hl]).
  unfold frame. rewrite Hadv. eexists. split; [reflexivity|]. split; assumption.
Qed.

(** The session starts in a well-formed state (lines 236-239). *)
Lemma init_state_wf car_counts st0 :
  length car_counts = 4 ->
  init_state car_counts (Timing.calculate_timers car_counts) = Ok st0 ->
  wf (Timing.calculate_timers car_counts) st0.
Proof.
  intros Hlen Hinit. unfold init_state in Hinit. py_inv Hinit. injection Hk as <-.
  split; [rewrite Timing.length_calculate_timers; exact Hlen | cbn; lia].
Qed.

(** From a well-formed state (four timers, lane below 4) the loop
    never raises [IndexError]: any number of frames runs to a
    well-formed state. *)
Lemma run_wf timers n st :
  wf timers st -> exists st', run timers n st = Ok st' /\ wf timers st'.
Proof.
  revert st. induction n as [|n IH]; intros st Hwf; [exists st; auto|].
  destruct (frame_wf timers st Hwf) as (st1 & Hf & Hwf1).
  simpl. rewrite Hf. apply IH. exact Hwf1.
Qed.

(** C10: [advance] refines the phase counter: a decrement that does not
    exhaust the phase keeps the lane and the cycle count and subtracts
    [delta]; one that does moves [phase = 4 * cycles_completed +
    active_lane] forward by exactly one, so [cycles_completed] grows
    exactly when the lane wraps from 3 to 0. *)
Theorem advance_phase timers delta st st' :
  active_lane st < 4 -> advance timers delta st = Ok st' ->
  if switches st delta
  then phase st' = S (phase st) /\ active_lane st' = next_lane (active_lane st)
       /\ py_index timers (active_lane st') = Ok (timer_remaining st')
  else st' = mkState (active_lane st) (py_sub (timer_remaining st) delta)
               (cycles_completed st) (total_vehicles st) (frame_count st).
Proof.
  intros Hl Hadv. unfold advance in Hadv. fold (switches st delta) in Hadv.
  destruct (switches st delta).
  - py_inv Hadv. injection Hk as <-. unfold phase. cbn [active_lane cycles_completed timer_remaining].
    repeat split; [|exact Ha]. apply next_lane_phase. exact Hl.
  - symmetry. injection Hadv as <-. reflexivity.
Qed.

Lemma frame_phase timers st st' :
  active_lane st < 4 -> frame timers st = Ok st' ->
  active_lane st' < 4 /\ phase st <= phase st' <= S (phase st).
Proof.
  intros Hl Hf. unfold frame, advance in Hf. py_inv Hf. injection Hk as <-.
  unfold phase. cbn [active_lane cycles_completed].
  destruct (py_leb _ _).
  - py_inv Ha. injection Hk as <-. cbn [active_lane cycles_completed].
    rewrite next_lane_phase by exact Hl. split; [apply next_lane_lt | lia].
  - injection Ha as <-. cbn [active_lane cycles_completed]. lia.
Qed.

Lemma run_phase_mono timers n st st' :
  active_lane st < 4 -> run timers n st = Ok st' ->
  active_lane st' < 4 /\ phase st <= phase st'.
Proof.
  revert st. induction n as [|n IH]; intros st Hl Hrun.
  - injection Hrun as <-. lia.
  - simpl in Hrun. py_inv Hrun. destruct (frame_phase _ _ _ Hl Ha) as [Hl1 Hp1].
    destruct (IH _ Hl1 Hk). lia.
Qed.

Lemma frame_fields timers st st' :
  frame timers st = Ok st' ->
  frame_count st' = S (frame_count st) /\ total_vehicles st' = total_vehicles st.
Proof.
  unfold frame, advance. intros Hf. py_inv Hf. injection Hk as <-. simpl.
  destruct (py_leb _ _).
  - py_inv Ha. injection Hk as <-. auto.
  - injection Ha as <-. auto.
Qed.

(** After [n] frames the frame counter has grown by exactly [n] and the
    vehicle total fixed at the start of the session is unchanged. *)
Lemma run_counters timers n st st' :
  run timers n st = Ok st' ->
  frame_count st' = frame_count st + n /\ total_vehicles st' = total_vehicles st.
Proof.
  revert st. induction n as [|n IH]; intros st Hrun.
  - injection Hrun as <-. lia.
  - simpl in Hrun. py_inv Hrun. destruct (frame_fields _ _ _ Ha) as [Hc Ht].
    destruct (IH _ Hk) as [Hc' Ht']. lia.
Qed.

Lemma reachable_run timers st0 n st :
  run timers n st0 = Ok st -> reachable timers st0 st.
Proof.
  enough (forall m s, reachable timers st0 s -> run timers m s = Ok st -> reachable timers st0 st)
    by (intros; eauto using reach_init).
  induction m as [|m IH]; intros s Hs Hrun; simpl in Hrun.
  - injection Hrun as <-. exact Hs.
  - py_inv Hrun. eapply IH; [eapply reach_frame|]; eauto.
Qed.

Lemma reachable_wf timers st0 st :
  wf timers st0 -> reachable timers st0 st -> wf timers st.
Proof.
  intros Hwf0 Hr. induction Hr as [|s s' _ IH Hf]; [exact Hwf0|].
  destruct (frame_wf timers s IH) as (s1 & Hf1 & Hwf1). congruence.
Qed.

(** C6: whatever the four vehicle counts and at any instance of
    [PyFloat] (Python's binary64 floats included), starting the session
    succeeds and no number of frames of the loop raises [IndexError]:
    [timers[active_lane]] is always in range. *)
Theorem session_no_index_error (car_counts : list Z) :
  length car_counts = 4 ->
  exists st0, init_state car_counts (Timing.calculate_timers car_counts) = Ok st0 /\
  forall n, exists st, run (Timing.calculate_timers car_counts) n st0 = Ok st /\
                       active_lane st < 4.
Proof.
  intros Hlen. set (timers := Timing.calculate_timers car_counts).
  assert (Ht : length timers = 4) by (unfold timers; rewrite Timing.length_calculate_timers; exact Hlen).
  destruct (py_index_lt timers 0 ltac:(lia)) as (t0 & H0 & _).
  exists (mkState 0 t0 0 (py_sum car_counts) 0). split.
  - unfold init_state. rewrite H0. reflexivity.
  - intros n. destruct (run_wf timers n (mkState 0 t0 0 (py_sum car_counts) 0))
      as (st & Hrun & _ & Hl); [split; [exact Ht | simpl; lia]|].
    exists st. auto.
Qed.

End Structure.

(** ** Witnesses: scenario B at binary64 *)

(** Scenario C at binary64: from the initial state of scenario B one
    [advance] by [15.0] hands the green to lane 1 with its 5 s. *)
Lemma advance_phase_witness :
  let timers := @Timing.calculate_timers float _ [10; 2; 10; 2]%Z in
  (active_lane (mkState 0 15%float 0 24 0) < 4)%nat /\
  advance timers 15%float (mkState 0 15%float 0 24 0) = Ok (mkState 1 5%float 0 24 0) /\
  phase (mkState 1 5%float 0 24 0) = S (phase (mkState 0 15%float 0 24 0)) /\
  active_lane (mkState 1 5%float 0 24 0) = next_lane (active_lane (mkState 0 15%float 0 24 0)).
Proof.
  intros timers.
  assert (Hadv : advance timers 15%float (mkState 0 15%float 0 24 0) = Ok (mkState 1 5%float 0 24 0))
    by (vm_compute; reflexivity).
  pose proof (advance_phase timers 15%float (mkState 0 15%float 0 24 0) _
                ltac:(cbn; lia) Hadv) as Hp.
  assert (Hsw : switches (mkState 0 15%float 0 24 0) 15%float = true) by (vm_compute; reflexivity).
  rewrite Hsw in Hp. destruct Hp as (Hp & Hl & _).
  split; [cbn; lia|]. split; [exact Hadv|]. split; assumption.
Defined.

Lemma session_no_index_error_witness :
  length [10; 2; 10; 2]%Z = 4%nat /\
  exists st0, init_state [10; 2; 10; 2]%Z (@Timing.calculate_timers float _ [10; 2; 10; 2]%Z) = Ok st0 /\
  forall n, exists st, run (@Timing.calculate_timers float _ [10; 2; 10; 2]%Z) n st0 = Ok st /\
                       (active_lane st < 4)%nat.
Proof. split; [reflexivity|]. apply session_no_index_error. reflexivity. Defined.

End Scheduler.
