(* ===== verification/Phase.v ===== *)
(** * Phases of the countdown, at any float semantics

    The loop of [main] subtracts [1 / 30] from [timer_remaining] once per
    frame and switches lane at the first result [<= 0] (lines 250-255 of
    [src/advanced_traffic_management.py]).  Which frame that is depends on
    how the instance of [PyFloat] rounds, so this file describes a phase
    by computation rather than by a formula:
    - [rem_after t k]: the remaining time after [k] decrements from [t];
    - [phase_length fuel t]: the number of frames of a phase that starts
      with [t] (the first [k >= 1] with [rem_after t k <= 0]), [None] if
      not found within [fuel] frames;
    - [countdown_all p t L]: the check [p] holds for the [L] values the
      countdown shows.
    The lemmas relate them to [Scheduler.run] at every instance: a phase
    of length [L] hands over to the next lane after exactly [L] frames,
    and when every green time has a phase length, every reachable state
    is [in_phase]: its remaining time is [rem_after t j] for its lane's
    green time [t] and some [j] below the phase length.  From any such
    state the lane hands over within its phase length ([lane_progress]),
    and when every phase is at most [B] frames long every lane gets its
    full green time within [4 * B] frames ([lane_reached]). *)

From Stdlib Require Import ZArith List Lia.
Import ListNotations.
From S2P Require Import Prelude PyNum Timing Scheduler.

Local Open Scope nat_scope.

Module Phase.
Import Scheduler.

Section Countdown.
Context {T : Type} `{PyFloat T}.

(** The value of [timer_remaining] [k] frames into a phase that began
    with [t]. *)
Fixpoint rem_after (t : T) (k : nat) : T :=
  match k with
  | O => t
  | S k' => py_sub (rem_after t k') tick
  end.

(** The frames of a phase that begins with [x]: the first decrement that
    gives [<= 0], searched for at most [fuel] frames. *)
Fixpoint phase_length (fuel : nat) (x : T) : option nat :=
  match fuel with
  | O => None
  | S fuel' =>
      if py_leb (py_sub x tick) (py_of_Z 0) then Some 1
      else option_map S (phase_length fuel' (py_sub x tick))
  end.

(** [p] holds for the first [n] values of the countdown from [x]. *)
Fixpoint countdown_all (p : T -> bool) (x : T) (n : nat) : bool :=
  match n with
  | O => true
  | S n' => p x && countdown_all p (py_sub x tick) n'
  end.

(** The values of the countdown from [x], [n] of them. *)
Fixpoint countdown_values (x : T) (n : nat) : list T :=
  match n with
  | O => []
  | S n' => x :: countdown_values (py_sub x tick) n'
  end.

(** A state of a phase: its remaining time is one of the values the
    countdown of its lane's green time goes through before the switch. *)
Definition in_phase (fuel : nat) (timers : list T) (st : state T) : Prop :=
  exists t L j, nth_error timers (active_lane st) = Some t /\
    phase_length fuel t = Some L /\ j < L /\ timer_remaining st = rem_after t j.

(** Every green time has a phase length within [fuel] frames. *)
Definition phases_end (fuel : nat) (timers : list T) : Prop :=
  Forall (fun t => exists L, phase_length fuel t = Some L) timers.

(** Every green time has a phase of at most [B] frames. *)
Definition phases_bounded (fuel B : nat) (timers : list T) : Prop :=
  Forall (fun t => exists L, phase_length fuel t = Some L /\ L <= B) timers.

End Countdown.

(** ** The countdown and [Scheduler.run] *)

Section Lemmas.
Context {T : Type} `{PyFloat T}.
Implicit Types (timers : list T) (t x : T).

Lemma rem_after_sub t k : rem_after (py_sub t tick) k = rem_after t (S k).
Proof. induction k as [|k IH]; cbn [rem_after]; [reflexivity | now rewrite IH]. Qed.

Lemma nth_error_countdown_values x n j :
  j < n -> nth_error (countdown_values x n) j = Some (rem_after x j).
Proof.
  revert x j. induction n as [|n IH]; intros x [|j] Hj; [lia | lia | reflexivity|].
  cbn [countdown_values nth_error]. rewrite IH by lia. rewrite rem_after_sub. reflexivity.
Qed.

Lemma length_countdown_values x n : length (countdown_values x n) = n.
Proof. revert x. induction n as [|n IH]; intros x; cbn; [reflexivity | now rewrite IH]. Qed.

Lemma phase_length_spec fuel x L :
  phase_length fuel x = Some L ->
  1 <= L /\ (forall k, 1 <= k < L -> py_leb (rem_after x k) (py_of_Z 0) = false) /\
  py_leb (rem_after x L) (py_of_Z 0) = true.
Proof.
  revert x L. induction fuel as [|fuel IH]; intros x L Hl; cbn [phase_length] in Hl;
    [discriminate|].
  destruct (py_leb (py_sub x tick) (py_of_Z 0)) eqn:Ht.
  - injection Hl as <-. split; [lia|]. split; [intros; lia | exact Ht].
  - destruct (phase_length fuel (py_sub x tick)) as [L'|] eqn:Hl'; [|discriminate].
    injection Hl as <-. destruct (IH _ _ Hl') as (H1 & Hk & Hend).
    rewrite rem_after_sub in Hend. split; [lia|]. split; [|exact Hend].
    intros [|[|k]] Hk'; [lia | exact Ht |].
    rewrite <- rem_after_sub. apply Hk. lia.
Qed.

Lemma phase_length_pos fuel x L : phase_length fuel x = Some L -> 1 <= L.
Proof. intros Hl. apply (phase_length_spec _ _ _ Hl). Qed.

Lemma countdown_all_spec (p : T -> bool) x n :
  countdown_all p x n = true <-> forall j, j < n -> p (rem_after x j) = true.
Proof.
  revert x. induction n as [|n IH]; intros x; cbn [countdown_all].
  - split; [intros _ j Hj; lia | reflexivity].
  - rewrite Bool.andb_true_iff, IH. split.
    + intros [Hx Hr] [|j] Hj; [exact Hx|]. rewrite <- rem_after_sub. apply Hr. lia.
    + intros Hall. split; [apply (Hall 0); lia|].
      intros j Hj. rewrite rem_after_sub. apply Hall. lia.
Qed.

(** Before the switch, [j] frames of a phase only count down. *)
Lemma run_countdown_frames timers j l t c tv fc :
  (forall k, 1 <= k <= j -> py_leb (rem_after t k) (py_of_Z 0) = false) ->
  run timers j (mkState l t c tv fc) = Ok (mkState l (rem_after t j) c tv (fc + j)).
Proof.
  revert t fc. induction j as [|j IH]; intros t fc Hk.
  - cbn. rewrite Nat.add_0_r. reflexivity.
  - change (run timers (S j) (mkState l t c tv fc))
      with (py_bind (frame timers (mkState l t c tv fc)) (run timers j)).
    rewrite frame_countdown by exact (Hk 1 ltac:(lia)). cbn [py_bind].
    cbn [active_lane timer_remaining cycles_completed total_vehicles frame_count].
    rewrite IH.
    + rewrite rem_after_sub. f_equal. f_equal. lia.
    + intros k Hk'. rewrite rem_after_sub. apply Hk. lia.
Qed.

(** A phase of length [L] ends after exactly [L] frames, in the first
    state of the next lane. *)
Lemma run_phase fuel timers l t c tv fc L r :
  phase_length fuel t = Some L ->
  nth_error timers (next_lane l) = Some r ->
  run timers L (mkState l t c tv fc) =
  Ok (mkState (next_lane l) r (if Nat.eqb (next_lane l) 0 then S c else c) tv (fc + L)).
Proof.
  intros Hl Hr. destruct (phase_length_spec _ _ _ Hl) as (H1 & Hk & Hend).
  replace L with ((L - 1) + 1) by lia. rewrite run_add.
  rewrite run_countdown_frames by (intros k Hk'; apply Hk; lia). cbn [py_bind run].
  rewrite frame_switch with (r := r); cbn [active_lane timer_remaining cycles_completed
    total_vehicles frame_count py_bind]; [f_equal; f_equal; lia | | exact Hr].
  unfold switches. cbn [timer_remaining]. change (py_sub (rem_after t (L - 1)) tick)
    with (rem_after t (S (L - 1))). replace (S (L - 1)) with L by lia. exact Hend.
Qed.

Lemma phases_end_nth fuel timers i t :
  phases_end fuel timers -> nth_error timers i = Some t ->
  exists L, phase_length fuel t = Some L.
Proof.
  unfold phases_end. rewrite Forall_forall. intros Hall Hi.
  apply Hall. eapply nth_error_In; eauto.
Qed.

Lemma frame_in_phase fuel timers st st' :
  phases_end fuel timers -> wf timers st -> in_phase fuel timers st ->
  frame timers st = Ok st' -> in_phase fuel timers st'.
Proof.
  intros Hends [Hlen Hl] (t & L & j & Ht & HL & Hj & Hrem) Hf.
  destruct (phase_length_spec _ _ _ HL) as (H1 & Hk & Hend).
  destruct (switches st tick) eqn:Hsw.
  - destruct (nth_error timers (next_lane (active_lane st))) as [r|] eqn:Hr;
      [|apply nth_error_None in Hr; pose proof (next_lane_lt (active_lane st)); lia].
    rewrite (frame_switch _ _ _ Hsw Hr) in Hf. injection Hf as <-.
    destruct (phases_end_nth _ _ _ _ Hends Hr) as (L' & HL').
    exists r, L', 0. cbn [active_lane timer_remaining]. repeat split; auto.
    apply (phase_length_pos _ _ _ HL').
  - rewrite (frame_countdown _ _ Hsw) in Hf. injection Hf as <-.
    exists t, L, (S j). cbn [active_lane timer_remaining]. rewrite Hrem.
    repeat split; auto.
    destruct (Nat.eq_dec (S j) L) as [E|E]; [|lia].
    unfold switches in Hsw. rewrite Hrem in Hsw.
    change (py_sub (rem_after t j) tick) with (rem_after t (S j)) in Hsw.
    rewrite E, Hend in Hsw. discriminate.
Qed.

Lemma reachable_in_phase fuel timers st0 st :
  phases_end fuel timers -> wf timers st0 -> in_phase fuel timers st0 ->
  reachable timers st0 st -> in_phase fuel timers st /\ wf timers st.
Proof.
  intros Hends Hwf0 Hp0 Hr. induction Hr as [|s s' _ [IHp IHw] Hf]; [auto|].
  split; [exact (frame_in_phase _ _ _ _ Hends IHw IHp Hf)|].
  destruct (frame_wf timers s IHw) as (s1 & Hf1 & Hw1). congruence.
Qed.

Lemma init_in_phase fuel car_counts timers st0 :
  phases_end fuel timers -> init_state car_counts timers = Ok st0 ->
  in_phase fuel timers st0.
Proof.
  intros Hends Hinit. unfold init_state, py_index in Hinit.
  destruct (nth_error timers 0) as [t0|] eqn:H0; [|discriminate].
  injection Hinit as <-. destruct (phases_end_nth _ _ _ _ Hends H0) as (L & HL).
  exists t0, L, 0. cbn [active_lane timer_remaining]. repeat split; auto.
  apply (phase_length_pos _ _ _ HL).
Qed.

(** A whole cycle at any instance: the four phase lengths one after the
    other bring lane 0 back with its full green time and one more
    completed cycle. *)
Lemma run_cycle fuel t0 t1 t2 t3 L0 L1 L2 L3 c tv fc :
  phase_length fuel t0 = Some L0 -> phase_length fuel t1 = Some L1 ->
  phase_length fuel t2 = Some L2 -> phase_length fuel t3 = Some L3 ->
  run [t0; t1; t2; t3] (L0 + L1 + L2 + L3) (mkState 0 t0 c tv fc) =
  Ok (mkState 0 t0 (S c) tv (fc + (L0 + L1 + L2 + L3))).
Proof.
  intros H0 H1 H2 H3. set (timers := [t0; t1; t2; t3]).
  rewrite !run_add, (run_phase fuel timers 0 t0 c tv fc L0 t1 H0 eq_refl). cbn [py_bind].
  change (next_lane 0) with 1. cbn [Nat.eqb].
  rewrite (run_phase fuel timers 1 t1 c tv _ L1 t2 H1 eq_refl). cbn [py_bind].
  change (next_lane 1) with 2. cbn [Nat.eqb].
  rewrite (run_phase fuel timers 2 t2 c tv _ L2 t3 H2 eq_refl). cbn [py_bind].
  change (next_lane 2) with 3. cbn [Nat.eqb].
  rewrite (run_phase fuel timers 3 t3 c tv _ L3 t0 H3 eq_refl).
  change (next_lane 3) with 0. cbn [Nat.eqb]. f_equal. f_equal. lia.
Qed.

Lemma run_cycles_from fuel t0 t1 t2 t3 L0 L1 L2 L3 q c tv fc :
  phase_length fuel t0 = Some L0 -> phase_length fuel t1 = Some L1 ->
  phase_length fuel t2 = Some L2 -> phase_length fuel t3 = Some L3 ->
  run [t0; t1; t2; t3] (q * (L0 + L1 + L2 + L3)) (mkState 0 t0 c tv fc) =
  Ok (mkState 0 t0 (c + q) tv (fc + q * (L0 + L1 + L2 + L3))).
Proof.
  intros H0 H1 H2 H3. revert c fc. induction q as [|q IH]; intros c fc.
  - cbn. f_equal. f_equal; lia.
  - rewrite Nat.mul_succ_l, Nat.add_comm, run_add,
      (run_cycle fuel _ _ _ _ _ _ _ _ c tv fc H0 H1 H2 H3).
    cbn [py_bind]. rewrite IH. f_equal. f_equal; lia.
Qed.

(** Before the end of a cycle the cycle counter has not moved: the last
    frame of lane 3 is still in the cycle, and the phase counter only
    grows. *)
Lemma run_within_cycle fuel t0 t1 t2 t3 L0 L1 L2 L3 r c tv fc :
  phase_length fuel t0 = Some L0 -> phase_length fuel t1 = Some L1 ->
  phase_length fuel t2 = Some L2 -> phase_length fuel t3 = Some L3 ->
  r < L0 + L1 + L2 + L3 ->
  exists st, run [t0; t1; t2; t3] r (mkState 0 t0 c tv fc) = Ok st /\ cycles_completed st = c.
Proof.
  intros H0 H1 H2 H3 Hr. set (timers := [t0; t1; t2; t3]).
  destruct (phase_length_spec _ _ _ H3) as (_ & Hk3 & _).
  assert (Hend : run timers (L0 + L1 + L2 + (L3 - 1)) (mkState 0 t0 c tv fc) =
                 Ok (mkState 3 (rem_after t3 (L3 - 1)) c tv (fc + L0 + L1 + L2 + (L3 - 1)))).
  { rewrite !run_add, (run_phase fuel timers 0 t0 c tv fc L0 t1 H0 eq_refl). cbn [py_bind].
    change (next_lane 0) with 1. cbn [Nat.eqb].
    rewrite (run_phase fuel timers 1 t1 c tv _ L1 t2 H1 eq_refl). cbn [py_bind].
    change (next_lane 1) with 2. cbn [Nat.eqb].
    rewrite (run_phase fuel timers 2 t2 c tv _ L2 t3 H2 eq_refl). cbn [py_bind].
    change (next_lane 2) with 3. cbn [Nat.eqb].
    rewrite run_countdown_frames by (intros k Hk; apply Hk3; lia). f_equal. }
  destruct (run_wf timers r (mkState 0 t0 c tv fc)) as (st & Hst & _ & Hlst); [split; cbn; lia|].
  exists st. split; [exact Hst|].
  replace (L0 + L1 + L2 + (L3 - 1)) with (r + (L0 + L1 + L2 + (L3 - 1) - r)) in Hend by lia.
  rewrite run_add, Hst in Hend. cbn [py_bind] in Hend.
  destruct (run_phase_mono _ _ _ _ Hlst Hend) as [_ Hmono].
  destruct (run_phase_mono _ _ (mkState 0 t0 c tv fc) st ltac:(cbn; lia) Hst) as [_ Hmono0].
  unfold phase in Hmono, Hmono0. cbn [active_lane cycles_completed] in Hmono, Hmono0. lia.
Qed.

Lemma rem_after_add t j k : rem_after (rem_after t j) k = rem_after t (k + j).
Proof. induction k as [|k IH]; cbn [rem_after Nat.add]; [reflexivity | now rewrite IH]. Qed.

Lemma phase_length_le fuel x L : phase_length fuel x = Some L -> L <= fuel.
Proof.
  revert x L. induction fuel as [|fuel IH]; intros x L Hl; cbn [phase_length] in Hl;
    [discriminate|].
  destruct (py_leb (py_sub x tick) (py_of_Z 0)); [injection Hl as <-; lia|].
  destruct (phase_length fuel (py_sub x tick)) as [L'|] eqn:Hl'; [|discriminate].
  injection Hl as <-. pose proof (IH _ _ Hl'). lia.
Qed.

(** The converse of [phase_length_spec]: enough fuel finds the phase. *)
Lemma phase_length_complete fuel x L :
  1 <= L <= fuel -> (forall k, 1 <= k < L -> py_leb (rem_after x k) (py_of_Z 0) = false) ->
  py_leb (rem_after x L) (py_of_Z 0) = true -> phase_length fuel x = Some L.
Proof.
  revert x L. induction fuel as [|fuel IH]; intros x L HL Hk Hend; [lia|].
  cbn [phase_length]. destruct L as [|[|L]]; [lia | cbn [rem_after] in Hend; now rewrite Hend|].
  assert (H1 : py_leb (py_sub x tick) (py_of_Z 0) = false) by (apply (Hk 1); lia).
  rewrite H1, (IH (py_sub x tick) (S L)); [reflexivity | lia | |].
  - intros k Hk'. rewrite rem_after_sub. apply Hk. lia.
  - rewrite rem_after_sub. exact Hend.
Qed.

(** A phase entered [j] frames ago has [L - j] frames left. *)
Lemma phase_length_after fuel t L j :
  phase_length fuel t = Some L -> j < L -> phase_length fuel (rem_after t j) = Some (L - j).
Proof.
  intros Hl Hj. destruct (phase_length_spec _ _ _ Hl) as (H1 & Hk & Hend).
  pose proof (phase_length_le _ _ _ Hl).
  apply phase_length_complete; [lia | |].
  - intros k Hk'. rewrite rem_after_add. apply Hk. lia.
  - rewrite rem_after_add. replace (L - j + j) with L by lia. exact Hend.
Qed.

(** From any state of a phase, the lane hands the green over to the next
    one, with its full green time, within the phase length. *)
Lemma lane_progress fuel timers st :
  wf timers st -> in_phase fuel timers st ->
  exists t L k s, nth_error timers (active_lane st) = Some t /\ phase_length fuel t = Some L /\
    1 <= k <= L /\ run timers k st = Ok s /\ active_lane s = next_lane (active_lane st) /\
    nth_error timers (active_lane s) = Some (timer_remaining s) /\
    cycles_completed s =
      (if Nat.eqb (active_lane s) 0 then S (cycles_completed st) else cycles_completed st).
Proof.
  intros [Hlen Hl] (t & L & j & Ht & HL & Hj & Hrem).
  destruct (nth_error timers (next_lane (active_lane st))) as [r|] eqn:Hr;
    [|apply nth_error_None in Hr; pose proof (next_lane_lt (active_lane st)); lia].
  destruct st as [l rm c tv fc]. cbn [active_lane timer_remaining cycles_completed] in *.
  subst rm. exists t, L, (L - j). eexists.
  split; [exact Ht|]. split; [exact HL|]. split; [lia|].
  split; [exact (run_phase fuel timers l (rem_after t j) c tv fc (L - j) r
                   (phase_length_after _ _ _ _ HL Hj) Hr)|].
  cbn [active_lane timer_remaining cycles_completed].
  split; [reflexivity|]. split; [exact Hr | reflexivity].
Qed.

Lemma phases_bounded_end fuel B timers : phases_bounded fuel B timers -> phases_end fuel timers.
Proof. apply Forall_impl. intros t (L & HL & _). exists L. exact HL. Qed.

(** [n] lane switches take at most [n * B] frames. *)
Lemma run_lanes fuel B timers st n :
  phases_bounded fuel B timers -> wf timers st -> in_phase fuel timers st ->
  exists k s, k <= n * B /\ run timers k st = Ok s /\
    active_lane s = Nat.iter n next_lane (active_lane st) /\
    wf timers s /\ in_phase fuel timers s.
Proof.
  intros Hb Hwf Hp. pose proof (phases_bounded_end _ _ _ Hb) as Hends.
  induction n as [|n (k & s & Hk & Hrun & Hl & Hws & Hps)].
  - exists 0, st. cbn. auto.
  - destruct (lane_progress fuel timers s Hws Hps)
      as (t & L & k' & s' & Ht & HL & Hk' & Hrun' & Hl' & _ & _).
    destruct (reachable_in_phase fuel timers s s' Hends Hws Hps (reachable_run _ _ _ _ Hrun'))
      as [Hps' Hws'].
    assert (HLB : L <= B).
    { unfold phases_bounded in Hb. rewrite Forall_forall in Hb.
      destruct (Hb t (nth_error_In _ _ Ht)) as (L0 & HL0 & HB). congruence. }
    exists (k + k'), s'. split; [cbn; lia|].
    split; [rewrite run_add, Hrun; exact Hrun'|].
    split; [rewrite Hl', Hl; reflexivity | auto].
Qed.

(** Every lane gets the green within four bounded phases: from any state
    of a phase, for every lane [m], some [k] between [1] and [4 * B]
    frames later lane [m] has just received its full green time. *)
Lemma lane_reached fuel B timers st m :
  phases_bounded fuel B timers -> wf timers st -> in_phase fuel timers st -> m < 4 ->
  exists k s, 1 <= k <= 4 * B /\ run timers k st = Ok s /\ active_lane s = m /\
    nth_error timers m = Some (timer_remaining s).
Proof.
  intros Hb Hwf Hp Hm. set (n := (m + 3 - active_lane st) mod 4).
  assert (Hn : n < 4) by (apply Nat.mod_upper_bound; lia).
  destruct (run_lanes fuel B timers st n Hb Hwf Hp) as (k1 & s1 & Hk1 & Hrun1 & Hl1 & Hw1 & Hp1).
  destruct (lane_progress fuel timers s1 Hw1 Hp1)
    as (t & L & k2 & s & Ht & HL & Hk2 & Hrun2 & Hl2 & Hfull & _).
  assert (HLB : L <= B).
  { unfold phases_bounded in Hb. rewrite Forall_forall in Hb.
    destruct (Hb t (nth_error_In _ _ Ht)) as (L0 & HL0 & HB). congruence. }
  assert (Hlane : active_lane s = m).
  { rewrite Hl2, Hl1, next_lane_iter by (destruct Hwf; assumption). unfold n.
    destruct Hwf as [_ Hl]. unfold next_lane.
    destruct (active_lane st) as [|[|[|[|]]]]; [..|lia];
      destruct m as [|[|[|[|]]]]; try lia; reflexivity. }
  exists (k1 + k2), s. split; [nia|].
  split; [rewrite run_add, Hrun1; exact Hrun2|].
  split; [exact Hlane | rewrite <- Hlane; exact Hfull].
Qed.

End Lemmas.

End Phase.
