(* ===== verification/Display.v ===== *)
(** * Display: what [draw_signals] and [draw_stats_panel] show

    Models the decision logic of the rendering functions of
    [src/advanced_traffic_management.py]; pixels, fonts and the housing
    geometry are not modelled.
    - [signals]: the table of lines 155-160 (position, count, green time,
      direction name of each signal), built by subscripting [car_counts]
      and [timers] (an [IndexError] when one is shorter than 4);
    - [light_colors]: lines 176-180, the colour of the red, yellow and
      green lamps of signal [idx];
    - [draw_signals]: lines 154-199, the view of each signal: its lamps,
      its direction, its count and its time text (the countdown
      [timer_remaining] on the active signal, the full green time on the
      others; the [:.1f] formatting is not modelled);
    - [draw_stats_panel]: lines 201-212, the two statistics shown;
    - [countdown_drawable]: the check, on [light_colors] itself, that a
      countdown value is positive and lights exactly the yellow lamp of
      the active signal when [<= 3] and exactly its green lamp when
      [> 3]; [Binary64.v] evaluates it on every countdown value of every
      phase.
    The lemmas describe the views at any float semantics; the safety of
    whole sessions is proved in [Session.v] and [Binary64.v]. *)

From Stdlib Require Import String.
From Stdlib Require Import ZArith List Lia.
Import ListNotations.
From S2P Require Import Prelude PyNum Timing Scheduler.

Local Open Scope nat_scope.
Local Open Scope bool_scope.

Module Display.

(** An RGB colour, as the Python tuples of the source. *)
Definition color : Type := (Z * Z * Z)%type.

Definition lamp_red : color := (255, 50, 50)%Z.
Definition lamp_yellow : color := (255, 200, 0)%Z.
Definition lamp_green : color := (50, 255, 50)%Z.
Definition lamp_off : color := (0, 0, 0)%Z.

Section Views.
Context {T : Type} `{PyFloat T}.

(** One row of the [signals] table. *)
Record signal : Type := mkSignal {
  sig_x : Z;
  sig_y : Z;
  sig_count : Z;
  sig_total_time : T;
  sig_direction : string
}.

(** The two texts of line 195. *)
Inductive time_text : Type :=
| Countdown (t : T)    (** [f"{timer_remaining:.1f}s"] *)
| TotalTime (t : T).   (** [f"{total_time}s"] *)

(** What is drawn for one signal. *)
Record signal_view : Type := mkView {
  view_direction : string;
  view_lights : list color;
  view_count : Z;
  view_time : time_text
}.

(** Lines 155-160. *)
Definition signals (car_counts : list Z) (timers : list T) : PyResult (list signal) :=
  c0 <- py_index car_counts 0 ;; t0 <- py_index timers 0 ;;
  c1 <- py_index car_counts 1 ;; t1 <- py_index timers 1 ;;
  c2 <- py_index car_counts 2 ;; t2 <- py_index timers 2 ;;
  c3 <- py_index car_counts 3 ;; t3 <- py_index timers 3 ;;
  Ok [mkSignal 500 250 c0 t0 "North"; mkSignal 700 500 c1 t1 "East";
      mkSignal 500 750 c2 t2 "South"; mkSignal 300 500 c3 t3 "West"]%Z.

(** Lines 176-180. *)
Definition light_colors (active_lane idx : nat) (timer_remaining : T) : list color :=
  [ if negb (Nat.eqb active_lane idx) then lamp_red else lamp_off;
    if Nat.eqb active_lane idx && py_leb timer_remaining (py_of_Z 3) then lamp_yellow else lamp_off;
    if Nat.eqb active_lane idx && py_ltb (py_of_Z 3) timer_remaining then lamp_green else lamp_off ].

(** The body of the loop of lines 162-199 for signal [idx]. *)
Definition signal_view_of (active_lane : nat) (timer_remaining : T) (idx : nat) (s : signal)
  : signal_view :=
  mkView (sig_direction s) (light_colors active_lane idx timer_remaining) (sig_count s)
    (if Nat.eqb active_lane idx then Countdown timer_remaining else TotalTime (sig_total_time s)).

(** Lines 154-199 ([frame_count] is passed but not used). *)
Definition draw_signals (active_lane : nat) (car_counts : list Z) (timers : list T)
    (timer_remaining : T) (frame_count : nat) : PyResult (list signal_view) :=
  sigs <- signals car_counts timers ;;
  Ok (map (fun '(idx, s) => signal_view_of active_lane timer_remaining idx s) (py_enumerate sigs)).

End Views.

(** Equality of two RGB colours, and of two lists of colours. *)
Definition color_eqb (a b : color) : bool :=
  let '(r1, g1, b1) := a in let '(r2, g2, b2) := b in
  Z.eqb r1 r2 && Z.eqb g1 g2 && Z.eqb b1 b2.

Fixpoint colors_eqb (l1 l2 : list color) : bool :=
  match l1, l2 with
  | [], [] => true
  | a :: l1', b :: l2' => color_eqb a b && colors_eqb l1' l2'
  | _, _ => false
  end.

(** A countdown value [rm] draws the active signal safely: it is
    positive, and the lamps [light_colors] gives the active signal are
    exactly the yellow one when [rm <= 3] and exactly the green one when
    [rm > 3]. *)
Definition countdown_drawable {T : Type} `{PyFloat T} (rm : T) : bool :=
  py_ltb (py_of_Z 0) rm &&
  (if py_leb rm (py_of_Z 3)
   then colors_eqb (light_colors 0 0 rm) [lamp_off; lamp_yellow; lamp_off]
   else py_ltb (py_of_Z 3) rm && colors_eqb (light_colors 0 0 rm) [lamp_off; lamp_off; lamp_green]).

(** Lines 201-212: the cycle count and the vehicle total. *)
Definition draw_stats_panel (cycles : nat) (total_vehicles : Z) : nat * Z :=
  (cycles, total_vehicles).

(** ** The lamps *)

Lemma color_eqb_spec (a b : color) : color_eqb a b = true <-> a = b.
Proof.
  destruct a as [[r1 g1] b1], b as [[r2 g2] b2]. cbn.
  rewrite !Bool.andb_true_iff, !Z.eqb_eq. split.
  - intros [[-> ->] ->]. reflexivity.
  - intros E. injection E as -> -> ->. auto.
Qed.

Lemma colors_eqb_eq (l1 l2 : list color) : colors_eqb l1 l2 = true -> l1 = l2.
Proof.
  revert l2. induction l1 as [|a l1 IH]; intros [|b l2]; cbn; try discriminate; [reflexivity|].
  rewrite Bool.andb_true_iff. intros [Hab Hl]. apply color_eqb_spec in Hab as ->.
  rewrite (IH _ Hl). reflexivity.
Qed.

Section Lamps.
Context {T : Type} `{PyFloat T}.

(** The lamps of the active signal do not depend on which lane it is. *)
Lemma light_colors_active (lane : nat) (rm : T) : light_colors lane lane rm = light_colors 0 0 rm.
Proof. unfold light_colors. rewrite (Nat.eqb_refl lane). reflexivity. Qed.

Lemma light_colors_inactive (active_lane idx : nat) (rm : T) :
  active_lane <> idx -> light_colors active_lane idx rm = [lamp_red; lamp_off; lamp_off].
Proof. intros Hne. unfold light_colors. apply Nat.eqb_neq in Hne. rewrite Hne. reflexivity. Qed.

Lemma signals_four (c0 c1 c2 c3 : Z) (t0 t1 t2 t3 : T) :
  signals [c0; c1; c2; c3] [t0; t1; t2; t3] =
  Ok [mkSignal 500 250 c0 t0 "North"; mkSignal 700 500 c1 t1 "East";
      mkSignal 500 750 c2 t2 "South"; mkSignal 300 500 c3 t3 "West"]%Z.
Proof. reflexivity. Qed.

Lemma signals_length_4 (car_counts : list Z) (timers : list T) :
  length car_counts = 4 -> length timers = 4 ->
  exists c0 c1 c2 c3 t0 t1 t2 t3,
    car_counts = [c0; c1; c2; c3] /\ timers = [t0; t1; t2; t3].
Proof.
  intros Hc Ht.
  destruct car_counts as [|c0 [|c1 [|c2 [|c3 [|]]]]]; try discriminate.
  destruct timers as [|t0 [|t1 [|t2 [|t3 [|]]]]]; try discriminate.
  repeat eexists.
Qed.

Lemma nth_error_draw_signals (active_lane : nat) (rm : T) sigs idx :
  nth_error (map (fun '(i, s) => signal_view_of active_lane rm i s) (py_enumerate sigs)) idx =
  option_map (signal_view_of active_lane rm idx) (nth_error sigs idx).
Proof.
  rewrite nth_error_map, nth_error_py_enumerate. destruct (nth_error sigs idx); reflexivity.
Qed.

Lemma light_colors_drawable (lane : nat) (rm : T) :
  countdown_drawable rm = true ->
  py_ltb (py_of_Z 0) rm = true /\
  (py_leb rm (py_of_Z 3) = true /\ light_colors lane lane rm = [lamp_off; lamp_yellow; lamp_off] \/
   py_ltb (py_of_Z 3) rm = true /\ light_colors lane lane rm = [lamp_off; lamp_off; lamp_green]).
Proof.
  unfold countdown_drawable. rewrite (light_colors_active lane), Bool.andb_true_iff.
  intros [Hpos Hd]. split; [exact Hpos|].
  destruct (py_leb rm (py_of_Z 3)).
  - left. split; [reflexivity | exact (colors_eqb_eq _ _ Hd)].
  - right. apply andb_prop in Hd as [Hlt Hd]. exact (conj Hlt (colors_eqb_eq _ _ Hd)).
Qed.

(** With four counts and four green times and the lane in range,
    [draw_signals] does not raise and draws four signals; every signal but
    the active one shows only its red lamp and its full green time; the
    active one shows its countdown and the lamps of [light_colors]. *)
Lemma draw_signals_views (car_counts : list Z) (timers : list T) (lane : nat)
    (rm : T) (fc : nat) :
  length car_counts = 4 -> length timers = 4 -> lane < 4 ->
  exists views, draw_signals lane car_counts timers rm fc = Ok views /\ length views = 4 /\
  forall idx v, nth_error views idx = Some v ->
    (idx <> lane -> view_lights v = [lamp_red; lamp_off; lamp_off] /\
                    exists t, nth_error timers idx = Some t /\ view_time v = TotalTime t) /\
    (idx = lane -> view_time v = Countdown rm /\ view_lights v = light_colors lane lane rm).
Proof.
  intros Hc Ht Hl.
  destruct (signals_length_4 car_counts timers Hc Ht)
    as (c0 & c1 & c2 & c3 & t0 & t1 & t2 & t3 & -> & ->).
  unfold draw_signals. rewrite signals_four. cbn [py_bind].
  eexists. split; [reflexivity|]. split; [reflexivity|].
  intros idx v Hv. rewrite nth_error_draw_signals in Hv.
  destruct (nth_error _ idx) as [s|] eqn:Hs; [|discriminate]. injection Hv as <-.
  unfold signal_view_of; cbn [view_lights view_time]. split.
  - intros Hne. rewrite light_colors_inactive by congruence.
    apply Nat.eqb_neq in Hne. rewrite (Nat.eqb_sym lane idx), Hne. split; [reflexivity|].
    exists (sig_total_time s). split; [|reflexivity].
    destruct idx as [|[|[|[|idx]]]]; cbn in Hs |- *; try (injection Hs as <-; reflexivity).
    rewrite nth_error_nil in Hs. discriminate.
  - intros ->. rewrite Nat.eqb_refl. split; reflexivity.
Qed.

End Lamps.


End Display.
