(* ===== verification/Render.v ===== *)
(** * Render: the shapes a frame draws

    Models the drawing calls of [src/advanced_traffic_management.py] as a
    list of commands ([draw_cmd]: a colour and a [shape]), in the order
    the program issues them; the [pygame] surface itself, the fonts and
    the texts are not modelled.
    - the module constants: the screen size (line 11) and the colour
      palette (lines 16-28);
    - [draw_intersection] (lines 113-151): the two textured roads (one
      5x5 tile per position, coloured [ASPHALT_TEXTURE[(x+y)//10 % 4]]),
      the lane markings, the crosswalks and the four arrows;
    - [signal_housing] (lines 163-191): the housing, the metal lines, the
      three lamps and the information box of one signal, and
      [render_signals], the loop of [draw_signals] over the four signals
      (lines 154-191);
    - [stats_panel_shapes] (lines 202-204) and [frame_shapes], the shapes
      of one frame of the main loop in order (lines 242-259).
    The theorems: [draw_intersection] never raises and its asphalt covers
    exactly the two roads; the housing of the South signal does not
    contain its green lamp. *)

From Stdlib Require Import String.
From Stdlib Require Import ZArith List Lia Floats.
Import ListNotations.
From S2P Require Import Prelude PyNum Timing Scheduler Display.

Local Open Scope Z_scope.

Module Render.
Import Display.

(** Line 11. *)
Definition screen_width : Z := 1000.
Definition screen_height : Z := 1030.

(** Lines 16-28. *)
Definition ROAD_COLOR : color := (60, 60, 60).
Definition LANE_COLOR : color := (200, 200, 200).
Definition CROSSWALK_COLOR : color := (250, 250, 250).
Definition ASPHALT_TEXTURE : list color :=
  [(55, 55, 55); (65, 65, 65); (50, 50, 50); (70, 70, 70)].
Definition WHITE : color := (255, 255, 255).
Definition RED : color := (255, 50, 50).
Definition YELLOW : color := (255, 200, 0).
Definition GREEN : color := (50, 255, 50).
Definition GRAY : color := (30, 30, 30).
Definition BLACK : color := (0, 0, 0).
Definition PANEL_COLOR : color := (40, 40, 40).

(** The drawing primitives the program calls, with their geometry. *)
Inductive shape : Type :=
| Fill                                          (** [screen.fill(color)] *)
| Rect (x y w h : Z) (width border_radius : Z)  (** [pygame.draw.rect]; [width = 0] fills *)
| Line (start_pos end_pos : Z * Z) (width : Z)  (** [pygame.draw.line] *)
| Polygon (points : list (Z * Z))               (** [pygame.draw.polygon], filled *)
| Circle (center : Z * Z) (radius : Z).         (** [pygame.draw.circle], filled *)

Record draw_cmd : Type := mkCmd {
  cmd_color : color;
  cmd_shape : shape
}.

(** Line 118: [ASPHALT_TEXTURE[(x+y)//10 % len(ASPHALT_TEXTURE)]]. *)
Definition asphalt_color (x y : Z) : PyResult color :=
  py_index ASPHALT_TEXTURE (Z.to_nat ((x + y) / 10 mod Z.of_nat (length ASPHALT_TEXTURE))).

(** Lines 116-119 and 121-124: a 5x5 tile at every [(x, y)], [y] in the
    outer loop. *)
Definition road_tiles (ys xs : list Z) : PyResult (list draw_cmd) :=
  py_mapM (fun '(y, x) => color <- asphalt_color x y ;; Ok (mkCmd color (Rect x y 5 5 0 0)))
    (list_prod ys xs).

(** Lines 128-136. *)
Definition lane_markings : list draw_cmd :=
  map (fun y => mkCmd LANE_COLOR (Line (500, y) (500, y + 30) 3)) (py_range 0 350 50) ++
  map (fun y => mkCmd LANE_COLOR (Line (500, y) (500, y + 30) 3)) (py_range 650 1000 50) ++
  map (fun x => mkCmd LANE_COLOR (Line (x, 500) (x + 30, 500) 3)) (py_range 0 350 50) ++
  map (fun x => mkCmd LANE_COLOR (Line (x, 500) (x + 30, 500) 3)) (py_range 650 1000 50).

(** Lines 139-141. *)
Definition crosswalks : list draw_cmd :=
  flat_map (fun i => [mkCmd CROSSWALK_COLOR (Rect (450 + i * 20) 350 10 300 0 0);
                      mkCmd CROSSWALK_COLOR (Rect 350 (450 + i * 20) 300 10 0 0)])
    (py_range 0 5 1).

(** Lines 144-147. *)
Definition arrow_n : list (Z * Z) := [(500, 100); (480, 130); (520, 130)].
Definition arrow_s : list (Z * Z) := [(500, 700); (480, 670); (520, 670)].
Definition arrow_e : list (Z * Z) := [(900, 500); (870, 480); (870, 520)].
Definition arrow_w : list (Z * Z) := [(100, 500); (130, 480); (130, 520)].

(** Lines 148-151. *)
Definition arrows : list draw_cmd :=
  [mkCmd WHITE (Polygon arrow_n); mkCmd WHITE (Polygon arrow_s);
   mkCmd WHITE (Polygon arrow_e); mkCmd WHITE (Polygon arrow_w)].

(** Lines 113-151. *)
Definition draw_intersection : PyResult (list draw_cmd) :=
  vertical <- road_tiles (py_range 0 1000 5) (py_range 350 650 5) ;;
  horizontal <- road_tiles (py_range 350 650 5) (py_range 0 1000 5) ;;
  Ok (vertical ++ horizontal ++ lane_markings ++ crosswalks ++ arrows).

(** The 24000 tiles are computed by [vm_compute] only, never by [simpl] or
    [cbn]. *)
Arguments draw_intersection : simpl never.

(** Lines 163-191 for the signal at [(x, y)]: the housing (taller
    upwards for the South signal), three metal lines, the three lamps of
    [light_colors] and the information box. *)
Definition signal_housing (x y : Z) (direction : string) (light_colors : list color)
  : list draw_cmd :=
  (if String.eqb direction "South" then
     [mkCmd (80, 80, 80) (Rect (x - 30) (y - 150) 60 240 0 10);
      mkCmd (120, 120, 120) (Rect (x - 28) (y - 148) 56 236 0 8)]
   else
     [mkCmd (80, 80, 80) (Rect (x - 30) (y - 110) 60 240 0 10);
      mkCmd (120, 120, 120) (Rect (x - 28) (y - 108) 56 236 0 8)]) ++
  map (fun i => mkCmd (150, 150, 150)
                  (Line (x - 25, y - 100 + i * 80) (x + 25, y - 100 + i * 80) 2))
    (py_range 0 3 1) ++
  map (fun '(i, color) => mkCmd color (Circle (x, y - 80 + Z.of_nat i * 80) 20))
    (py_enumerate light_colors) ++
  [mkCmd PANEL_COLOR (Rect (x - 50) (y + 100) 100 60 0 5);
   mkCmd (100, 100, 100) (Rect (x - 50) (y + 100) 100 60 2 5)].

(** Lines 202-204: the statistics panel and its border. *)
Definition stats_panel_shapes : list draw_cmd :=
  [mkCmd PANEL_COLOR (Rect 20 20 300 120 0 10);
   mkCmd (100, 100, 100) (Rect 20 20 300 120 2 10)].

Section Frame.
Context {T : Type} `{PyFloat T}.

(** Lines 154-191: the shapes of [draw_signals]. *)
Definition render_signals (active_lane : nat) (car_counts : list Z) (timers : list T)
    (timer_remaining : T) : PyResult (list draw_cmd) :=
  sigs <- signals car_counts timers ;;
  Ok (flat_map (fun '(idx, s) => signal_housing (sig_x s) (sig_y s) (sig_direction s)
                                   (light_colors active_lane idx timer_remaining))
               (py_enumerate sigs)).

End Frame.

(** Lines 242-259: the shapes of one frame in the order they are drawn:
    the background, the intersection, the signals, the statistics panel. *)
Definition frame_shapes (intersection signal_shapes : list draw_cmd) : list draw_cmd :=
  mkCmd (0, 50, 0) Fill :: intersection ++ signal_shapes ++ stats_panel_shapes.

(** ** Geometry *)

(** A filled rectangle covers the pixel [(px, py)]. *)
Definition covers (s : shape) (px py : Z) : Prop :=
  match s with
  | Rect x y w h width _ => width = 0 /\ x <= px < x + w /\ y <= py < y + h
  | _ => False
  end.

(** The two roads: [350 <= x < 650] (north-south) and [350 <= y < 650]
    (east-west). *)
Definition on_road (px py : Z) : Prop :=
  (350 <= px < 650 /\ 0 <= py < 1000) \/ (0 <= px < 1000 /\ 350 <= py < 650).

(** The disc of a circle lies inside a rectangle. *)
Definition circle_in_rect (c r : shape) : bool :=
  match c, r with
  | Circle (cx, cy) rad, Rect x y w h _ _ =>
      (x <=? cx - rad) && (cx + rad <=? x + w) && (y <=? cy - rad) && (cy + rad <=? y + h)
  | _, _ => false
  end.

(** ** Lemmas *)

(** Line 118 never raises: [(x + y) // 10 % 4] is an index of the list. *)
Lemma asphalt_color_ok (x y : Z) :
  exists c, asphalt_color x y = Ok c /\ In c ASPHALT_TEXTURE.
Proof.
  unfold asphalt_color. apply py_index_lt. cbn [length].
  pose proof (Z.mod_pos_bound ((x + y) / 10) 4 ltac:(lia)).
  apply Nat2Z.inj_lt. rewrite Z2Nat.id; cbn; lia.
Qed.

Lemma road_tiles_spec (ys xs : list Z) :
  exists cmds, road_tiles ys xs = Ok cmds /\
    (length cmds = length ys * length xs)%nat /\
    forall c, In c cmds <->
      exists x y col, In y ys /\ In x xs /\ asphalt_color x y = Ok col /\
                      c = mkCmd col (Rect x y 5 5 0 0).
Proof.
  destruct (py_mapM_ok (fun '(y, x) => color <- asphalt_color x y ;;
                                        Ok (mkCmd color (Rect x y 5 5 0 0))) (list_prod ys xs))
    as (cmds & Hm).
  { intros [y x] _. destruct (asphalt_color_ok x y) as (c & -> & _). eexists. reflexivity. }
  exists cmds. split; [exact Hm|]. apply py_mapM_Forall2 in Hm.
  split; [rewrite <- (Forall2_length Hm), length_prod; reflexivity|].
  intros c. split.
  - intros Hc. destruct (Forall2_in_r _ _ _ _ Hm Hc) as ([y x] & Hin & Hf).
    apply in_prod_iff in Hin as [Hy Hx].
    destruct (asphalt_color x y) as [col|] eqn:Ha; [|discriminate]. injection Hf as <-.
    exists x, y, col. auto.
  - intros (x & y & col & Hy & Hx & Ha & ->).
    destruct (Forall2_in_l _ _ _ _ Hm (in_prod _ _ _ _ Hy Hx)) as (c & Hin & Hf).
    rewrite Ha in Hf. injection Hf as <-. exact Hin.
Qed.

(** The tile of a pixel: the multiple of 5 below it. *)
Lemma tile_in_range (a b z : Z) :
  a mod 5 = 0 -> a <= z < b -> In (z - z mod 5) (py_range a b 5).
Proof.
  intros Ha Hz. apply py_range_In; [lia|].
  pose proof (Z.div_mod z 5 ltac:(lia)). pose proof (Z.mod_pos_bound z 5 ltac:(lia)).
  pose proof (Z.div_mod a 5 ltac:(lia)).
  exists (z / 5 - a / 5). lia.
Qed.

Lemma tile_covers (z : Z) : z - z mod 5 <= z < z - z mod 5 + 5.
Proof. pose proof (Z.mod_pos_bound z 5 ltac:(lia)). lia. Qed.

(** The lane markings, crosswalks and arrows are not asphalt. *)
Lemma decor_not_asphalt :
  forallb (fun c => negb (existsb (color_eqb (cmd_color c)) ASPHALT_TEXTURE))
    (lane_markings ++ crosswalks ++ arrows) = true.
Proof. vm_compute. reflexivity. Qed.

Lemma decor_not_asphalt_In c :
  In c (lane_markings ++ crosswalks ++ arrows) -> ~ In (cmd_color c) ASPHALT_TEXTURE.
Proof.
  intros Hc Hin. pose proof decor_not_asphalt as Hd. rewrite forallb_forall in Hd.
  specialize (Hd c Hc). apply Bool.negb_true_iff in Hd.
  assert (Hex : existsb (color_eqb (cmd_color c)) ASPHALT_TEXTURE = true).
  { apply existsb_exists. exists (cmd_color c). split; [exact Hin | apply color_eqb_spec; reflexivity]. }
  congruence.
Qed.

(** C16: the asphalt of [draw_intersection] covers exactly the two roads:
    the function never raises (the texture index [(x+y)//10 % 4] is
    always in range), every pixel of a road is covered by an asphalt
    tile, and no asphalt-coloured shape covers a pixel off the roads. *)
Theorem draw_intersection_roads :
  exists cmds, draw_intersection = Ok cmds /\
  forall px py, on_road px py <->
    exists c, In c cmds /\ In (cmd_color c) ASPHALT_TEXTURE /\ covers (cmd_shape c) px py.
Proof.
  destruct (road_tiles_spec (py_range 0 1000 5) (py_range 350 650 5)) as (v & Hv & _ & Hvin).
  destruct (road_tiles_spec (py_range 350 650 5) (py_range 0 1000 5)) as (h & Hh & _ & Hhin).
  exists (v ++ h ++ lane_markings ++ crosswalks ++ arrows).
  split; [unfold draw_intersection; rewrite Hv; cbn [py_bind]; rewrite Hh; reflexivity|].
  intros px py. split.
  - intros Hroad.
    destruct (asphalt_color_ok (px - px mod 5) (py - py mod 5)) as (col & Hcol & Hin).
    exists (mkCmd col (Rect (px - px mod 5) (py - py mod 5) 5 5 0 0)).
    split; [|split; [exact Hin | cbn; pose proof (tile_covers px); pose proof (tile_covers py); lia]].
    destruct Hroad as [[Hx Hy]|[Hx Hy]].
    + apply in_or_app. left. apply Hvin. eexists _, _, col.
      repeat split; [apply tile_in_range; easy | apply tile_in_range; easy | exact Hcol].
    + apply in_or_app. right. apply in_or_app. left. apply Hhin. eexists _, _, col.
      repeat split; [apply tile_in_range; easy | apply tile_in_range; easy | exact Hcol].
  - intros (c & Hc & Hcol & Hcov). apply in_app_or in Hc as [Hc|Hc].
    + apply Hvin in Hc as (x & y & col & Hy & Hx & _ & ->). cbn in Hcov.
      destruct Hcov as (_ & Hpx & Hpy).
      apply py_range_In in Hx as (i & Hi & -> & Hlt); [|lia].
      apply py_range_In in Hy as (j & Hj & -> & Hlt'); [|lia]. left. lia.
    + apply in_app_or in Hc as [Hc|Hc].
      * apply Hhin in Hc as (x & y & col & Hy & Hx & _ & ->). cbn in Hcov.
        destruct Hcov as (_ & Hpx & Hpy).
        apply py_range_In in Hx as (i & Hi & -> & Hlt); [|lia].
        apply py_range_In in Hy as (j & Hj & -> & Hlt'); [|lia]. right. lia.
      * exfalso. exact (decor_not_asphalt_In c Hc Hcol).
Qed.

(** ** The signals *)

Section SignalShapes.
Context {T : Type} `{PyFloat T}.

(** With four counts and four green times [render_signals] does not
    raise. *)
Lemma render_signals_ok (active_lane : nat) (car_counts : list Z) (timers : list T) (rm : T) :
  length car_counts = 4%nat -> length timers = 4%nat ->
  exists cmds, render_signals active_lane car_counts timers rm = Ok cmds.
Proof.
  intros Hc Ht. destruct (signals_length_4 car_counts timers Hc Ht)
    as (c0 & c1 & c2 & c3 & t0 & t1 & t2 & t3 & -> & ->).
  unfold render_signals. rewrite signals_four. eexists. reflexivity.
Qed.

End SignalShapes.

Lemma draw_intersection_computed :
  match draw_intersection with Ok _ => true | Raise _ => false end = true.
Proof. vm_compute. reflexivity. Qed.

Lemma draw_intersection_ok : exists cmds, draw_intersection = Ok cmds.
Proof.
  pose proof draw_intersection_computed as Hd.
  destruct draw_intersection as [cmds|]; [eexists; reflexivity | discriminate].
Qed.

(** C4: the housing of a signal contains its three lamps, except for the
    South signal: its housing is drawn 40 pixels higher (lines 164-166)
    while its lamps stay at [y - 80], [y] and [y + 80] (line 185), so the
    green lamp, a disc of radius 20 centred at [y + 80], reaches 10
    pixels below the housing's bottom edge at [y + 90]. *)
Theorem signal_housing_lamps (x y : Z) (direction : string) (lc : list color) :
  length lc = 3%nat ->
  exists housing, hd_error (signal_housing x y direction lc) = Some (mkCmd (80, 80, 80) housing) /\
  (direction <> "South"%string ->
     forall col center r, In (mkCmd col (Circle center r)) (signal_housing x y direction lc) ->
     circle_in_rect (Circle center r) housing = true) /\
  (direction = "South"%string ->
     exists col, In (mkCmd col (Circle (x, y + 80) 20)) (signal_housing x y direction lc) /\
     circle_in_rect (Circle (x, y + 80) 20) housing = false).
Proof.
  intros Hl. destruct lc as [|l0 [|l1 [|l2 [|]]]]; try discriminate.
  destruct (String.eqb_spec direction "South") as [->|Hne].
  - eexists. split; [reflexivity|]. split; [intros Hne; congruence|]. intros _.
    exists l2. split.
    + unfold signal_housing. do 2 (apply in_or_app; right). apply in_or_app; left.
      apply in_map_iff. exists (2%nat, l2). split; [do 3 f_equal; lia | cbn; tauto].
    + cbn [circle_in_rect].
      assert (E : (y + 80 + 20 <=? y - 150 + 240) = false) by (apply Z.leb_gt; lia).
      rewrite E. apply Bool.andb_false_r.
  - apply String.eqb_neq in Hne as Hb.
    eexists. split; [unfold signal_housing; rewrite Hb; reflexivity|].
    split; [|intros E; congruence]. intros _ col center r Hin.
    unfold signal_housing in Hin. rewrite Hb in Hin.
    apply in_app_or in Hin as [Hin|Hin]; [destruct Hin as [E|[E|[]]]; discriminate|].
    apply in_app_or in Hin as [Hin|Hin]; [apply in_map_iff in Hin as (i & E & _); discriminate|].
    apply in_app_or in Hin as [Hin|Hin]; [|destruct Hin as [E|[E|[]]]; discriminate].
    apply in_map_iff in Hin as ([i c] & E & Hi). injection E as <- <- <-.
    apply in_combine_l, in_seq in Hi. cbn [length] in Hi. cbn [circle_in_rect].
    repeat (rewrite Bool.andb_true_iff; split); apply Z.leb_le; lia.
Qed.

(** ** Witnesses: scenario B at binary64, lane 0 with 15 s left *)

Lemma signal_housing_lamps_witness :
  exists housing,
    hd_error (signal_housing 500 750 "South" [lamp_off; lamp_off; lamp_green]) =
      Some (mkCmd (80, 80, 80) housing) /\
    ("South"%string <> "South"%string ->
       forall col center r, In (mkCmd col (Circle center r))
         (signal_housing 500 750 "South" [lamp_off; lamp_off; lamp_green]) ->
       circle_in_rect (Circle center r) housing = true) /\
    ("South"%string = "South"%string ->
       exists col, In (mkCmd col (Circle (500, 750 + 80) 20))
         (signal_housing 500 750 "South" [lamp_off; lamp_off; lamp_green]) /\
       circle_in_rect (Circle (500, 750 + 80) 20) housing = false).
Proof. exact (signal_housing_lamps 500 750 "South" [lamp_off; lamp_off; lamp_green] eq_refl). Defined.

End Render.
