(* ===== verification/Capture.v ===== *)
(** * Capture: the vehicle counts of the four approaches

    Models the acquisition functions of [src/advanced_traffic_management.py]
    up to their collaborators, which are Section variables: [imread] is
    [cv2.imread] ([None] when the file cannot be read), [detect] gives the
    class column [int(det[5])] of the detections of the YOLOv5 model for an
    image (the inference itself is not modelled).
    - [count_vehicles]: lines 56-61, the detections of class car (2),
      motorcycle (3), bus (5) or truck (7);
    - [capture_from_file_dialog]: lines 63-80, from the paths the dialog
      returned;
    - [capture_one_by_one_images]: lines 82-111, from the sequence of what
      [cap.read()] and [cv2.waitKey(1)] returned; the webcam loop waits
      for ['s'] (capture) or ['q'] (abort), so on a finite input it may
      still be waiting: the result is an [option].
    Both return four counts, or the sentinel [[0, 0, 0, 0]] on failure,
    which [main] cannot tell apart from four empty approaches. *)

From Stdlib Require Import String.
From Stdlib Require Import ZArith List Lia.
Import ListNotations.
From S2P Require Import Prelude.

Local Open Scope Z_scope.

Module Capture.

(** Line 59. *)
Definition vehicle_classes : list Z := [2; 3; 5; 7].

(** Line 84. *)
Definition directions : list string := ["North"; "East"; "South"; "West"]%string.

(** The key codes [ord('s')] and [ord('q')] (line 100, line 104). *)
Definition key_s : Z := 115.
Definition key_q : Z := 113.

Section Acquisition.
Variable image : Type.
Variable imread : string -> option image.
Variable detect : image -> list Z.

(** Lines 56-61: [sum(1 for det in detections if int(det[5]) in vehicle_classes)]. *)
Definition count_vehicles (frame : image) : Z :=
  py_sum (map (fun _ => 1) (filter (fun c => existsb (Z.eqb c) vehicle_classes) (detect frame))).

(** Lines 71-79: one count per path, [0] for an unreadable image. *)
Definition count_images (image_paths : list string) : list Z :=
  fold_left (fun vehicle_counts image_path =>
               vehicle_counts ++ [match imread image_path with
                                  | None => 0
                                  | Some img => count_vehicles img
                                  end]) image_paths [].

(** Lines 63-80. *)
Definition capture_from_file_dialog (image_paths : list string) : list Z :=
  if negb (Nat.eqb (length image_paths) 4) then [0; 0; 0; 0]
  else count_images image_paths.

(** What one iteration of the [while True] loop of lines 90-107 reads:
    a failed [cap.read()], or a frame and the key of [cv2.waitKey(1)]. *)
Inductive webcam_step : Type :=
| ReadFailed
| Frame (frame : image) (key : Z).

Inductive side_result : Type :=
| Captured (count : Z) (rest : list webcam_step)
| Aborted.

(** Lines 90-107 for one direction; [None] when the input ends while the
    loop still waits. *)
Fixpoint capture_side (steps : list webcam_step) : option side_result :=
  match steps with
  | [] => None
  | ReadFailed :: _ => Some Aborted
  | Frame frame key :: rest =>
      if Z.eqb key key_s then Some (Captured (count_vehicles frame) rest)
      else if Z.eqb key key_q then Some Aborted
      else capture_side rest
  end.

(** Lines 88-111: the loop over the directions, appending one count each. *)
Fixpoint capture_sides (dirs : list string) (steps : list webcam_step)
    (vehicle_counts : list Z) : option (list Z) :=
  match dirs with
  | [] => Some vehicle_counts
  | _ :: dirs' =>
      match capture_side steps with
      | None => None
      | Some Aborted => Some [0; 0; 0; 0]
      | Some (Captured c rest) => capture_sides dirs' rest (vehicle_counts ++ [c])
      end
  end.

(** Lines 82-111. *)
Definition capture_one_by_one_images (steps : list webcam_step) : option (list Z) :=
  capture_sides directions steps [].

End Acquisition.

Arguments ReadFailed {image}.
Arguments Frame {image} frame key.
Arguments Captured {image} count rest.
Arguments Aborted {image}.
Arguments count_vehicles {image} detect frame.
Arguments count_images {image} imread detect image_paths.
Arguments capture_from_file_dialog {image} imread detect image_paths.
Arguments capture_side {image} detect steps.
Arguments capture_sides {image} detect dirs steps vehicle_counts.
Arguments capture_one_by_one_images {image} detect steps.

(** A step the webcam loop of lines 90-107 does not skip: a failed read,
    or a frame with the key ['s'] or ['q']. *)
Definition decisive {image : Type} (step : webcam_step image) : bool :=
  match step with
  | ReadFailed => true
  | Frame _ key => Z.eqb key key_s || Z.eqb key key_q
  end.

Section Properties.
Context {image : Type} (imread : string -> option image) (detect : image -> list Z).

Lemma count_vehicles_range (frame : image) :
  0 <= count_vehicles detect frame <= Z.of_nat (length (detect frame)).
Proof.
  unfold count_vehicles. rewrite py_sum_ones.
  pose proof (filter_length_le (fun c => existsb (Z.eqb c) vehicle_classes) (detect frame)).
  lia.
Qed.

Lemma count_images_map (image_paths : list string) :
  count_images imread detect image_paths =
  map (fun p => match imread p with None => 0 | Some img => count_vehicles detect img end)
    image_paths.
Proof. unfold count_images. rewrite fold_left_append_map. reflexivity. Qed.

Lemma count_images_nonneg (image_paths : list string) :
  Forall (fun c => 0 <= c) (count_images imread detect image_paths).
Proof.
  rewrite count_images_map. apply Forall_map, Forall_forall. intros p _.
  destruct (imread p); [apply count_vehicles_range | lia].
Qed.

Lemma capture_from_file_dialog_four (image_paths : list string) :
  length (capture_from_file_dialog imread detect image_paths) = 4%nat /\
  Forall (fun c => 0 <= c) (capture_from_file_dialog imread detect image_paths).
Proof.
  unfold capture_from_file_dialog.
  destruct (Nat.eqb_spec (length image_paths) 4) as [E|E]; cbn [negb].
  - split; [rewrite count_images_map, length_map; exact E | apply count_images_nonneg].
  - split; [reflexivity | repeat constructor; lia].
Qed.

Lemma capture_side_captured steps c rest :
  capture_side detect steps = Some (Captured c rest) -> 0 <= c.
Proof.
  induction steps as [|[|frame key] steps IH]; cbn; try discriminate.
  destruct (Z.eqb key key_s).
  - intros H. injection H as <- _. apply count_vehicles_range.
  - destruct (Z.eqb key key_q); [discriminate | exact IH].
Qed.

Lemma capture_sides_four dirs steps acc counts :
  capture_sides detect dirs steps acc = Some counts ->
  Forall (fun c => 0 <= c) acc ->
  (length counts = length acc + length dirs)%nat /\ Forall (fun c => 0 <= c) counts \/
  counts = [0; 0; 0; 0].
Proof.
  revert steps acc. induction dirs as [|d dirs IH]; intros steps acc Hc Hacc; cbn in Hc.
  - injection Hc as <-. left. split; [cbn; lia | exact Hacc].
  - destruct (capture_side detect steps) as [[c rest|]|] eqn:Hs; try discriminate.
    + destruct (IH rest (acc ++ [c]) Hc) as [[Hl Hf]|Hz].
      * apply Forall_app. split; [exact Hacc|]. constructor; [|constructor].
        exact (capture_side_captured _ _ _ Hs).
      * left. split; [rewrite Hl, length_app; cbn; lia | exact Hf].
      * right. exact Hz.
    + injection Hc as <-. right. reflexivity.
Qed.

Lemma capture_one_by_one_images_four (steps : list (webcam_step image)) counts :
  capture_one_by_one_images detect steps = Some counts ->
  length counts = 4%nat /\ Forall (fun c => 0 <= c) counts.
Proof.
  intros Hc. destruct (capture_sides_four directions steps [] counts Hc (Forall_nil _))
    as [[Hl Hf] | ->].
  - split; [exact Hl | exact Hf].
  - split; [reflexivity | repeat constructor; lia].
Qed.

(** C18: both acquisition functions give [main] four non-negative counts:
    the file dialog always, and the webcam whenever its loop returns
    (after four captures, or the sentinel after a failure or ['q']). *)
Theorem capture_returns_four (image_paths : list string) (steps : list (webcam_step image))
    (counts : list Z) :
  (length (capture_from_file_dialog imread detect image_paths) = 4%nat /\
   Forall (fun c => 0 <= c) (capture_from_file_dialog imread detect image_paths)) /\
  (capture_one_by_one_images detect steps = Some counts ->
   length counts = 4%nat /\ Forall (fun c => 0 <= c) counts).
Proof.
  split; [apply capture_from_file_dialog_four | apply capture_one_by_one_images_four].
Qed.

(** C20: the file-dialog capture of four images gives, for each image in
    order, its vehicle count when [cv2.imread] can load it and [0] when it
    cannot: an unreadable image counts as an empty approach (minimum
    green time) and the other images keep their counts, instead of the
    acquisition being aborted. *)
Theorem unreadable_image_counts_zero (image_paths : list string) (i : nat) (p : string) :
  length image_paths = 4%nat -> nth_error image_paths i = Some p ->
  nth_error (capture_from_file_dialog imread detect image_paths) i =
  Some (match imread p with None => 0 | Some img => count_vehicles detect img end).
Proof.
  intros Hl Hp. unfold capture_from_file_dialog. rewrite Hl. cbn [Nat.eqb negb].
  rewrite count_images_map, nth_error_map, Hp. reflexivity.
Qed.

(** The steps before the first decisive one are skipped. *)
Lemma capture_side_skip (skipped : list (webcam_step image)) step rest :
  Forall (fun s => decisive s = false) skipped ->
  capture_side detect (skipped ++ step :: rest) = capture_side detect (step :: rest).
Proof.
  induction 1 as [|[|frame key] skipped Hd _ IH]; [reflexivity | discriminate|].
  cbn [decisive] in Hd. apply Bool.orb_false_iff in Hd as [Hs Hq].
  cbn [app capture_side]. rewrite Hs, Hq. exact IH.
Qed.

Lemma capture_side_total (steps : list (webcam_step image)) :
  (1 <= length (filter decisive steps))%nat ->
  exists r, capture_side detect steps = Some r /\
    forall c rest, r = Captured c rest ->
      length (filter decisive rest) = (length (filter decisive steps) - 1)%nat.
Proof.
  induction steps as [|[|frame key] steps IH]; cbn [filter decisive length capture_side];
    [lia | intros _; eexists; split; [reflexivity | discriminate] |].
  destruct (Z.eqb key key_s) eqn:Hs; cbn [orb].
  - intros _. eexists. split; [reflexivity|]. intros c rest E. injection E as _ <-.
    cbn [length]. lia.
  - destruct (Z.eqb key key_q); cbn [length].
    + intros _. eexists. split; [reflexivity | discriminate].
    + exact IH.
Qed.

Lemma capture_sides_total dirs (steps : list (webcam_step image)) acc :
  (length dirs <= length (filter decisive steps))%nat ->
  exists counts, capture_sides detect dirs steps acc = Some counts.
Proof.
  revert steps acc. induction dirs as [|d dirs IH]; intros steps acc Hn; cbn [capture_sides];
    [eexists; reflexivity|].
  cbn [length] in Hn. destruct (capture_side_total steps ltac:(lia)) as ([c rest|] & Hs & Hr).
  - rewrite Hs. apply IH. rewrite (Hr c rest eq_refl). lia.
  - rewrite Hs. eexists. reflexivity.
Qed.

(** C17: the webcam loop terminates once it has read four decisive steps
    (a failed read, or a frame with the key ['s'] or ['q']), whatever the
    frames and keys in between: it returns four counts. *)
Theorem capture_one_by_one_images_terminates (steps : list (webcam_step image)) :
  (4 <= length (filter decisive steps))%nat ->
  exists counts, capture_one_by_one_images detect steps = Some counts /\
                 length counts = 4%nat.
Proof.
  intros Hn. destruct (capture_sides_total directions steps [] Hn) as (counts & Hc).
  exists counts. split; [exact Hc|]. exact (proj1 (capture_one_by_one_images_four _ _ Hc)).
Qed.

(** C19: the counts of the webcam input: when the four directions are
    captured with ['s'] (after frames with other keys, which are only
    shown), the counts are those of the four captured frames, in the
    order North, East, South, West. *)
Theorem capture_one_by_one_images_counts (w0 w1 w2 w3 : list (webcam_step image))
    (f0 f1 f2 f3 : image) rest :
  Forall (fun s => decisive s = false) (w0 ++ w1 ++ w2 ++ w3) ->
  capture_one_by_one_images detect
    (w0 ++ Frame f0 key_s :: w1 ++ Frame f1 key_s :: w2 ++ Frame f2 key_s ::
     w3 ++ Frame f3 key_s :: rest) =
  Some [count_vehicles detect f0; count_vehicles detect f1;
        count_vehicles detect f2; count_vehicles detect f3].
Proof.
  rewrite !Forall_app. intros (H0 & H1 & H2 & H3).
  unfold capture_one_by_one_images, directions. cbn [capture_sides].
  rewrite capture_side_skip by exact H0. cbn [capture_side]. rewrite Z.eqb_refl.
  rewrite capture_side_skip by exact H1. cbn [capture_side]. rewrite Z.eqb_refl.
  rewrite capture_side_skip by exact H2. cbn [capture_side]. rewrite Z.eqb_refl.
  rewrite capture_side_skip by exact H3. cbn [capture_side]. rewrite Z.eqb_refl.
  reflexivity.
Qed.

End Properties.

(** ** Witnesses: images are numbers, [bad.jpg] cannot be read and every
    image shows a car, a motorcycle, a person and a truck. *)

Lemma capture_returns_four_witness :
  let imread := fun p : string => if String.eqb p "bad.jpg" then None else Some 1%nat in
  let detect := fun _ : nat => [2; 3; 0; 7] in
  let steps := [Frame 0%nat (-1); Frame 0%nat key_s; Frame 0%nat 120; Frame 0%nat key_s;
                Frame 0%nat key_s; Frame 0%nat key_s] in
  capture_one_by_one_images detect steps = Some [3; 3; 3; 3] /\
  (length [3; 3; 3; 3] = 4%nat /\ Forall (fun c => 0 <= c) [3; 3; 3; 3]) /\
  capture_from_file_dialog imread detect ["a.jpg"; "bad.jpg"; "c.jpg"; "d.jpg"]%string
    = [3; 0; 3; 3].
Proof.
  intros imread detect steps.
  assert (Hs : capture_one_by_one_images detect steps = Some [3; 3; 3; 3]) by reflexivity.
  split; [exact Hs|]. split; [|reflexivity].
  exact (proj2 (capture_returns_four imread detect ["a.jpg"; "bad.jpg"; "c.jpg"; "d.jpg"]%string
                  steps [3; 3; 3; 3]) Hs).
Defined.

Lemma unreadable_image_counts_zero_witness :
  let imread := fun p : string => if String.eqb p "bad.jpg" then None else Some 1%nat in
  let detect := fun _ : nat => [2; 3; 0; 7] in
  let paths := ["a.jpg"; "bad.jpg"; "c.jpg"; "d.jpg"]%string in
  nth_error (capture_from_file_dialog imread detect paths) 1 = Some 0 /\
  nth_error (capture_from_file_dialog imread detect paths) 2 = Some 3.
Proof.
  intros imread detect paths. split.
  - apply (unreadable_image_counts_zero imread detect paths 1 "bad.jpg"); reflexivity.
  - apply (unreadable_image_counts_zero imread detect paths 2 "c.jpg"); reflexivity.
Defined.

Lemma capture_one_by_one_images_terminates_witness :
  let detect := fun _ : nat => [2; 3; 0; 7] in
  let steps := [Frame 0%nat (-1); Frame 0%nat key_s; ReadFailed; Frame 0%nat 120;
                Frame 0%nat key_q; Frame 0%nat key_s] in
  exists counts, capture_one_by_one_images detect steps = Some counts /\ length counts = 4%nat.
Proof.
  intros detect steps. apply capture_one_by_one_images_terminates. cbn. lia.
Defined.

Lemma capture_one_by_one_images_counts_witness :
  let detect := fun n : nat => repeat 2 n in
  capture_one_by_one_images detect
    ([Frame 9%nat 120] ++ Frame 1%nat key_s :: [] ++ Frame 2%nat key_s ::
     [Frame 9%nat (-1)] ++ Frame 3%nat key_s :: [] ++ Frame 4%nat key_s :: [])
  = Some [1; 2; 3; 4].
Proof.
  intros detect.
  exact (capture_one_by_one_images_counts detect [Frame 9%nat 120] [] [Frame 9%nat (-1)] []
           1%nat 2%nat 3%nat 4%nat [] ltac:(repeat constructor)).
Defined.

End Capture.
