(* ===== verification/Session.v ===== *)
(** * Session: [main] and its event loop

    Models [main] (lines 214-264 of [src/advanced_traffic_management.py])
    around the scheduler and the display:
    - the choice of the input method (lines 221-230): the string read by
      [input()]; the counts returned by [capture_one_by_one_images] and
      [capture_from_file_dialog] (modelled in [Capture.v]) are arguments;
    - the rejection of [[0, 0, 0, 0]] (lines 232-234);
    - the start of the scheduler (lines 236-239, [Scheduler.init_state]);
    - the [while running] loop (lines 241-262): [loop_body] handles the
      events of one frame, draws the intersection, advances the scheduler
      by [1 / 30], draws the signals and the statistics and counts the
      frame; what it draws is kept as the signal views, the statistics and
      the shapes of the frame ([Render.frame_shapes]).  The loop is driven
      by the list of the event batches that [pygame.event.get()] returns
      at each frame; a [QUIT] event sets [running = False], which ends the
      loop after the current frame has been updated and drawn.
    [main] returns what the session drew (one [rendered] per frame) and
    how it ended.  The theorems: the loop stops at the first [QUIT],
    [main] never raises and rejects exactly [[0, 0, 0, 0]], and the
    statistics panel of every frame shows the vehicle total and a never
    decreasing cycle count.  The lemmas [main_session_safe] and
    [main_session_countdowns] reduce the safety of every drawn frame to
    an invariant of the scheduler's states; [Binary64.v] and [Text.v]
    discharge it at Python's floats. *)

From Stdlib Require Import String.
From Stdlib Require Import ZArith QArith Lqa List Lia Floats Sorted.
Import ListNotations.
From S2P Require Import Prelude PyNum Timing Scheduler Display Render Capture.

Local Open Scope nat_scope.

Module Session.
Import Scheduler Display Render.

(** The events of [pygame.event.get()] the loop distinguishes. *)
Inductive event : Type :=
| QUIT
| OtherEvent.

Section Main.
Context {T : Type} `{PyFloat T}.

(** What one frame draws: what the four signals and the statistics panel
    show, and the shapes of the whole frame in drawing order. *)
Record rendered : Type := mkRendered {
  drawn_signals : list (signal_view (T := T));
  drawn_stats : nat * Z;
  drawn_shapes : list draw_cmd
}.

Inductive loop_outcome : Type :=
| Exited (st : state T) (trace : list rendered)        (** a [QUIT] was handled *)
| StillRunning (st : state T) (trace : list rendered). (** the input ended first *)

Inductive main_outcome : Type :=
| InvalidChoice                (** lines 228-230 *)
| NoValidInput                 (** lines 232-234 *)
| Session (o : loop_outcome).

(** Lines 246-248: [running] becomes [False] on a [QUIT] event. *)
Definition quit_requested (events : list event) : bool :=
  existsb (fun e => match e with QUIT => true | OtherEvent => false end) events.

(** Lines 242-259 but for the events (lines 246-248, read by
    [main_loop]): the background and the intersection, the timer update,
    the signals, the frame counter and the statistics panel. *)
Definition loop_body (timers : list T) (car_counts : list Z) (st : state T)
  : PyResult (state T * rendered) :=
  intersection <- draw_intersection ;;
  st1 <- advance timers tick st ;;
  views <- draw_signals (active_lane st1) car_counts timers (timer_remaining st1)
             (frame_count st1) ;;
  signal_shapes <- render_signals (active_lane st1) car_counts timers (timer_remaining st1) ;;
  Ok (mkState (active_lane st1) (timer_remaining st1) (cycles_completed st1)
        (total_vehicles st1) (S (frame_count st1)),
      mkRendered views (draw_stats_panel (cycles_completed st1) (total_vehicles st1))
        (frame_shapes intersection signal_shapes)).

Definition outcome_cons (r : rendered) (o : loop_outcome) : loop_outcome :=
  match o with
  | Exited st tr => Exited st (r :: tr)
  | StillRunning st tr => StillRunning st (r :: tr)
  end.

(** Lines 241-262, one event batch per frame. *)
Fixpoint main_loop (timers : list T) (car_counts : list Z) (frames : list (list event))
    (st : state T) : PyResult loop_outcome :=
  match frames with
  | [] => Ok (StillRunning st [])
  | events :: rest =>
      let running := negb (quit_requested events) in
      p <- loop_body timers car_counts st ;;
      let '(st', r) := p in
      if running then
        o <- main_loop timers car_counts rest st' ;; Ok (outcome_cons r o)
      else Ok (Exited st' [r])
  end.

(** Lines 232-262, once the counts are known. *)
Definition start_session (car_counts : list Z) (frames : list (list event))
  : PyResult main_outcome :=
  if py_list_eqb car_counts [0; 0; 0; 0]%Z then Ok NoValidInput
  else
    let timers := Timing.calculate_timers car_counts in
    st0 <- init_state car_counts timers ;;
    o <- main_loop timers car_counts frames st0 ;;
    Ok (Session o).

(** Lines 224-230: the counts of the chosen input method, [None] for an
    invalid choice. *)
Definition selected_counts (choice : string)
    (capture_one_by_one_images capture_from_file_dialog : list Z) : option (list Z) :=
  if String.eqb choice "1" then Some capture_one_by_one_images
  else if String.eqb choice "2" then Some capture_from_file_dialog
  else None.

(** Lines 214-264. *)
Definition main (choice : string) (capture_one_by_one_images capture_from_file_dialog : list Z)
    (frames : list (list event)) : PyResult main_outcome :=
  match selected_counts choice capture_one_by_one_images capture_from_file_dialog with
  | Some car_counts => start_session car_counts frames
  | None => Ok InvalidChoice
  end.

Definition outcome_trace (o : loop_outcome) : list rendered :=
  match o with Exited _ tr | StillRunning _ tr => tr end.

Definition outcome_state (o : loop_outcome) : state T :=
  match o with Exited st _ | StillRunning st _ => st end.

End Main.

(** Proofs about the loop work with [loop_body]'s lemmas: [cbn] and
    [simpl] keep it folded, and conversion does not unfold the 24000
    tiles of the roads, which only [vm_compute] evaluates. *)
Arguments loop_body : simpl never.
Opaque draw_intersection.

Section Safety.
Context {T : Type} `{PyFloat T}.

(** A frame is drawn safely when it shows four signals, all red but one,
    the active lane, which shows exactly one lamp (yellow when
    [timer_remaining <= 3], green when [timer_remaining > 3], the tests of
    lines 177-178) and a positive countdown. *)
Definition frame_safe (r : rendered (T := T)) : Prop :=
  length (drawn_signals r) = 4 /\
  exists lane, lane < 4 /\
  forall idx v, nth_error (drawn_signals r) idx = Some v ->
    (idx <> lane -> view_lights v = [lamp_red; lamp_off; lamp_off]) /\
    (idx = lane -> exists t, view_time v = Countdown t /\ py_ltb (py_of_Z 0) t = true /\
       (py_leb t (py_of_Z 3) = true /\ view_lights v = [lamp_off; lamp_yellow; lamp_off] \/
        py_ltb (py_of_Z 3) t = true /\ view_lights v = [lamp_off; lamp_off; lamp_green])).

End Safety.

(** ** The loop body refines the scheduler's frame *)

Section Loop.
Context {T : Type} `{PyFloat T}.
Implicit Types (timers : list T) (st : state T).

Lemma loop_body_frame timers car_counts st st' r :
  loop_body timers car_counts st = Ok (st', r) -> frame timers st = Ok st'.
Proof.
  unfold loop_body, frame. intros Hb. py_inv Hb. py_inv Hk. rewrite Ha0. cbn [py_bind].
  py_inv Hk0. py_inv Hk. injection Hk0 as <- _. reflexivity.
Qed.

Lemma loop_body_ok timers car_counts st :
  length car_counts = 4 -> wf timers st ->
  exists st1 views shapes, advance timers tick st = Ok st1 /\
    draw_signals (active_lane st1) car_counts timers (timer_remaining st1) (frame_count st1)
      = Ok views /\ wf timers st1 /\
    loop_body timers car_counts st =
    Ok (mkState (active_lane st1) (timer_remaining st1) (cycles_completed st1)
          (total_vehicles st1) (S (frame_count st1)),
        mkRendered views (draw_stats_panel (cycles_completed st1) (total_vehicles st1)) shapes).
Proof.
  intros Hc Hwf. destruct (advance_wf timers tick st Hwf) as (st1 & Hadv & Hwf1).
  destruct Hwf1 as [Ht Hl].
  destruct (signals_length_4 car_counts timers Hc Ht)
    as (c0 & c1 & c2 & c3 & t0 & t1 & t2 & t3 & Ec & Et).
  destruct draw_intersection_ok as (inter & Hi).
  destruct (render_signals_ok (active_lane st1) car_counts timers (timer_remaining st1) Hc Ht)
    as (sigs & Hr).
  eexists st1, _, _. split; [exact Hadv|].
  assert (Hd : draw_signals (active_lane st1) car_counts timers (timer_remaining st1)
                 (frame_count st1) = Ok (map (fun '(i, s) => signal_view_of (active_lane st1)
                                          (timer_remaining st1) i s)
                                          (py_enumerate [mkSignal 500 250 c0 t0 "North";
                                             mkSignal 700 500 c1 t1 "East";
                                             mkSignal 500 750 c2 t2 "South";
                                             mkSignal 300 500 c3 t3 "West"]%Z)))
    by (unfold draw_signals; rewrite Ec, Et, signals_four; reflexivity).
  split; [exact Hd|]. split; [split; assumption|].
  unfold loop_body. rewrite Hi. cbn [py_bind]. rewrite Hadv. cbn [py_bind]. rewrite Hd.
  cbn [py_bind]. rewrite Hr. reflexivity.
Qed.

Lemma loop_body_wf timers car_counts st st' r :
  wf timers st -> loop_body timers car_counts st = Ok (st', r) -> wf timers st'.
Proof.
  intros Hwf Hb. apply loop_body_frame in Hb.
  destruct (frame_wf timers st Hwf) as (s & Hs & Hws). congruence.
Qed.

(** An invariant of the states that holds after every loop body, and a
    property of what every loop body draws, carry over to the whole run
    of the loop. *)
Lemma main_loop_trace (P : state T -> Prop) (Q : rendered -> Prop) timers car_counts :
  (forall st st' r, P st -> loop_body timers car_counts st = Ok (st', r) -> P st' /\ Q r) ->
  forall frames st o, P st -> main_loop timers car_counts frames st = Ok o ->
  P (outcome_state o) /\ Forall Q (outcome_trace o).
Proof.
  intros Hstep frames. induction frames as [|evs rest IH]; intros st o Hp Hloop; cbn in Hloop.
  - injection Hloop as <-. split; [exact Hp | constructor].
  - py_inv Hloop. destruct a as [st' r]. destruct (Hstep _ _ _ Hp Ha) as [Hp' Hq].
    destruct (negb (quit_requested evs)).
    + py_inv Hk. injection Hk0 as <-. destruct (IH _ _ Hp' Ha0) as [Hps Hqs].
      destruct a; cbn in *; split; auto.
    + injection Hk as <-. cbn. split; auto.
Qed.

Lemma main_loop_ok timers car_counts frames st :
  length car_counts = 4 -> wf timers st ->
  exists o, main_loop timers car_counts frames st = Ok o.
Proof.
  intros Hc. revert st. induction frames as [|evs rest IH]; intros st Hwf; cbn.
  - eexists. reflexivity.
  - destruct (loop_body_ok timers car_counts st Hc Hwf) as (st1 & views & shapes & _ & _ & _ & Hb).
    rewrite Hb. cbn [py_bind].
    destruct (negb (quit_requested evs)); [|eexists; reflexivity].
    destruct (IH _ (loop_body_wf _ _ _ _ _ Hwf Hb)) as (o & Ho). rewrite Ho.
    eexists. reflexivity.
Qed.

(** The loop stops at the first frame whose events contain [QUIT], after
    updating and drawing that frame; the states it goes through are those
    of [Scheduler.run]. *)
Lemma main_loop_quit timers car_counts pre evs post st :
  length car_counts = 4 -> wf timers st ->
  Forall (fun e => quit_requested e = false) pre -> quit_requested evs = true ->
  exists st' tr, main_loop timers car_counts (pre ++ evs :: post) st = Ok (Exited st' tr) /\
    length tr = S (length pre) /\ run timers (S (length pre)) st = Ok st'.
Proof.
  intros Hc Hwf Hpre Hq. revert st Hwf.
  induction Hpre as [|e pre He _ IH]; intros st Hwf; cbn [app main_loop].
  - destruct (loop_body_ok timers car_counts st Hc Hwf) as (st1 & views & shapes & _ & _ & _ & Hb).
    rewrite Hb, Hq. cbn. eexists _, _. split; [reflexivity|]. split; [reflexivity|].
    rewrite (loop_body_frame _ _ _ _ _ Hb). reflexivity.
  - destruct (loop_body_ok timers car_counts st Hc Hwf) as (st1 & views & shapes & _ & _ & _ & Hb).
    rewrite Hb, He. cbn [py_bind negb].
    destruct (IH _ (loop_body_wf _ _ _ _ _ Hwf Hb)) as (st' & tr & Hl & Hlen & Hrun).
    rewrite Hl. cbn. eexists _, _. split; [reflexivity|]. split; [cbn; lia|].
    change (run timers (S (S (length pre))) st)
      with (py_bind (frame timers st) (run timers (S (length pre)))).
    rewrite (loop_body_frame _ _ _ _ _ Hb). exact Hrun.
Qed.

End Loop.

(** ** The session *)

Section Main_props.
Context {T : Type} `{PyFloat T}.

Lemma start_session_no_valid_input (car_counts : list Z) frames :
  @start_session T _ car_counts frames = Ok NoValidInput <-> car_counts = [0; 0; 0; 0]%Z.
Proof.
  unfold start_session. rewrite <- py_list_eqb_spec.
  destruct (py_list_eqb car_counts [0; 0; 0; 0]%Z); [split; reflexivity|].
  split; [|discriminate]. intros Hs.
  destruct (init_state _ _) as [st0|]; cbn in Hs; [|discriminate].
  destruct (main_loop _ _ _ _); discriminate.
Qed.

Lemma start_session_ok (car_counts : list Z) frames :
  length car_counts = 4 -> car_counts <> [0; 0; 0; 0]%Z ->
  exists st0 o, init_state car_counts (Timing.calculate_timers car_counts) = Ok st0 /\
    main_loop (Timing.calculate_timers car_counts) car_counts frames st0 = Ok o /\
    @start_session T _ car_counts frames = Ok (Session o).
Proof.
  intros Hc Hnz. set (timers := Timing.calculate_timers car_counts).
  assert (Ht : length timers = 4) by (unfold timers; rewrite Timing.length_calculate_timers; exact Hc).
  destruct (py_index_lt timers 0 ltac:(lia)) as (t0 & H0 & _).
  assert (Hinit : init_state car_counts timers = Ok (mkState 0 t0 0 (py_sum car_counts) 0))
    by (unfold init_state; rewrite H0; reflexivity).
  destruct (main_loop_ok timers car_counts frames (mkState 0 t0 0 (py_sum car_counts) 0) Hc
              (conj Ht (Nat.lt_0_succ 3))) as (o & Ho).
  exists (mkState 0 t0 0 (py_sum car_counts) 0), o. split; [exact Hinit|]. split; [exact Ho|].
  unfold start_session. fold timers.
  destruct (py_list_eqb car_counts [0; 0; 0; 0]%Z) eqn:E;
    [apply py_list_eqb_spec in E; contradiction|].
  rewrite Hinit. cbn [py_bind]. rewrite Ho. reflexivity.
Qed.

(** C12: [main] answers "No valid input" exactly when the chosen input
    method returned [[0, 0, 0, 0]]: a genuine reading of four empty
    approaches is rejected like an aborted capture. *)
Theorem main_rejects_all_zero choice w d frames :
  @main T _ choice w d frames = Ok NoValidInput <->
  selected_counts choice w d = Some [0; 0; 0; 0]%Z.
Proof.
  unfold main. destruct (selected_counts choice w d) as [cc|].
  - rewrite start_session_no_valid_input. split; [intros ->; reflexivity | congruence].
  - split; discriminate.
Qed.

(** Whatever the choice, when the chosen input method returns four
    counts, [main] does not raise. *)
Lemma main_ok_of_length choice w d frames cc :
  selected_counts choice w d = Some cc -> length cc = 4 ->
  exists res, @main T _ choice w d frames = Ok res.
Proof.
  intros Hsel Hc. unfold main. rewrite Hsel.
  destruct (py_list_eqb cc [0; 0; 0; 0]%Z) eqn:E.
  - apply py_list_eqb_spec in E. exists NoValidInput.
    apply start_session_no_valid_input. exact E.
  - assert (Hnz : cc <> [0; 0; 0; 0]%Z)
      by (intros Hz; apply py_list_eqb_spec in Hz; congruence).
    destruct (start_session_ok cc frames Hc Hnz) as (st0 & o & _ & _ & Hs).
    eexists. exact Hs.
Qed.

(** C11: the loop stops at the first frame whose events contain [QUIT]:
    that frame is still advanced and drawn, the events after it are never
    read, and the final state is the scheduler's after exactly that many
    frames. *)
Theorem main_quit_stops choice w d cc pre evs post :
  selected_counts choice w d = Some cc -> length cc = 4 -> cc <> [0; 0; 0; 0]%Z ->
  Forall (fun e => quit_requested e = false) pre -> quit_requested evs = true ->
  exists st0 st tr,
    init_state cc (Timing.calculate_timers cc) = Ok st0 /\
    @main T _ choice w d (pre ++ evs :: post) = Ok (Session (Exited st tr)) /\
    length tr = S (length pre) /\
    run (Timing.calculate_timers cc) (S (length pre)) st0 = Ok st /\
    frame_count st = S (length pre).
Proof.
  intros Hsel Hc Hnz Hpre Hq. unfold main. rewrite Hsel.
  destruct (start_session_ok cc (pre ++ evs :: post) Hc Hnz) as (st0 & o & Hinit & Ho & Hs).
  assert (Hwf : wf (Timing.calculate_timers cc) st0).
  { unfold init_state in Hinit. py_inv Hinit. injection Hk as <-.
    split; [rewrite Timing.length_calculate_timers; exact Hc | cbn; lia]. }
  destruct (main_loop_quit _ cc pre evs post st0 Hc Hwf Hpre Hq) as (st & tr & Hl & Hlen & Hrun).
  rewrite Hl in Ho. injection Ho as <-.
  exists st0, st, tr. repeat split; try assumption.
  destruct (run_counters _ _ _ _ Hrun) as [Hf _].
  unfold init_state in Hinit. py_inv Hinit. injection Hk as <-. cbn in Hf. exact Hf.
Qed.

(** C9: the whole program never raises once an input method has
    delivered: for any files chosen in the dialog, any images and any
    detections, and any webcam input on which the capture loop returns,
    [main] runs its session (or refuses it) over any sequence of frames
    without an exception, at any instance of [PyFloat] (binary64
    included). *)
Theorem main_never_raises {image : Type} (imread : string -> option image)
    (detect : image -> list Z) (image_paths : list string)
    (steps : list (Capture.webcam_step image)) (w : list Z) choice frames :
  Capture.capture_one_by_one_images detect steps = Some w ->
  exists res, @main T _ choice w (Capture.capture_from_file_dialog imread detect image_paths)
                frames = Ok res.
Proof.
  intros Hw. unfold selected_counts.
  destruct (selected_counts choice w (Capture.capture_from_file_dialog imread detect image_paths))
    as [cc|] eqn:Hsel.
  - apply (main_ok_of_length _ _ _ _ cc Hsel).
    unfold selected_counts in Hsel.
    destruct (String.eqb choice "1"); [injection Hsel as <-|].
    + exact (proj1 (Capture.capture_one_by_one_images_four detect steps w Hw)).
    + destruct (String.eqb choice "2"); [injection Hsel as <-|discriminate].
      exact (proj1 (Capture.capture_from_file_dialog_four imread detect image_paths)).
  - exists InvalidChoice. unfold main. rewrite Hsel. reflexivity.
Qed.

End Main_props.

Section Display_props.
Context {T : Type} `{PyFloat T}.

(** A loop body whose new countdown is drawable draws a safe frame. *)
Lemma loop_body_safe timers car_counts (st st' : state T) r :
  length car_counts = 4 -> wf timers st -> loop_body timers car_counts st = Ok (st', r) ->
  countdown_drawable (timer_remaining st') = true -> frame_safe r.
Proof.
  intros Hc Hwf Hb Hdr.
  destruct (loop_body_ok timers car_counts st Hc Hwf) as (st1 & views & shapes & _ & Hd & [Ht Hl] & Hb').
  rewrite Hb' in Hb. injection Hb as <- <-. cbn [timer_remaining] in Hdr.
  destruct (draw_signals_views car_counts timers (active_lane st1) (timer_remaining st1)
              (frame_count st1) Hc Ht Hl) as (views' & Hd' & Hlen & Hv).
  rewrite Hd in Hd'. injection Hd' as <-.
  split; [exact Hlen|]. exists (active_lane st1). split; [exact Hl|].
  intros idx v Hnth. destruct (Hv idx v Hnth) as [Hne Heq].
  split; [intros H1; apply (Hne H1)|].
  intros ->. destruct (Heq eq_refl) as [Htime Hlights]. rewrite Hlights.
  exists (timer_remaining st1). split; [exact Htime|].
  exact (light_colors_drawable (active_lane st1) _ Hdr).
Qed.

(** A session that [main] runs is the loop from the start state. *)
Lemma main_session_loop choice w d frames cc (o : loop_outcome (T := T)) :
  selected_counts choice w d = Some cc -> main choice w d frames = Ok (Session o) ->
  exists st0, init_state cc (Timing.calculate_timers cc) = Ok st0 /\
              main_loop (Timing.calculate_timers cc) cc frames st0 = Ok o.
Proof.
  intros Hsel Hmain. unfold main in Hmain. rewrite Hsel in Hmain. unfold start_session in Hmain.
  destruct (py_list_eqb cc [0; 0; 0; 0]%Z); [discriminate|].
  py_inv Hmain. py_inv Hk. injection Hk0 as <-. exists a. auto.
Qed.

(** The display safety of a whole session follows from an invariant [P]
    of the scheduler's states that holds at the start, is kept by every
    frame and makes every new countdown drawable. *)
Lemma main_session_safe (P : state T -> Prop) choice w d frames cc o :
  selected_counts choice w d = Some cc -> length cc = 4 ->
  (forall st0, init_state cc (Timing.calculate_timers cc) = Ok st0 -> P st0) ->
  (forall st, P st -> wf (Timing.calculate_timers cc) st) ->
  (forall st st', P st -> frame (Timing.calculate_timers cc) st = Ok st' ->
     P st' /\ countdown_drawable (timer_remaining st') = true) ->
  main choice w d frames = Ok (Session o) ->
  Forall frame_safe (outcome_trace o).
Proof.
  intros Hsel Hc Hinit Hwf Hstep Hmain.
  destruct (main_session_loop _ _ _ _ _ _ Hsel Hmain) as (st0 & Hi & Hl).
  refine (proj2 (main_loop_trace P frame_safe _ cc _ frames st0 o (Hinit st0 Hi) Hl)).
  intros st st' r Hp Hb.
  destruct (Hstep st st' Hp (loop_body_frame _ _ _ _ _ Hb)) as [Hp' Hdr].
  exact (conj Hp' (loop_body_safe _ cc st st' r Hc (Hwf st Hp) Hb Hdr)).
Qed.

(** The countdown a loop body draws is the remaining time of its new
    state. *)
Lemma loop_body_countdown timers car_counts (st st' : state T) r v t :
  length car_counts = 4 -> wf timers st -> loop_body timers car_counts st = Ok (st', r) ->
  In v (drawn_signals r) -> view_time v = Countdown t -> t = timer_remaining st'.
Proof.
  intros Hc Hwf Hb Hin Ht.
  destruct (loop_body_ok timers car_counts st Hc Hwf) as (st1 & views & shapes & _ & Hd & [Hlen Hl] & Hb').
  rewrite Hb' in Hb. injection Hb as <- <-. cbn [drawn_signals] in Hin.
  destruct (draw_signals_views car_counts timers (active_lane st1) (timer_remaining st1)
              (frame_count st1) Hc Hlen Hl) as (views' & Hd' & _ & Hv).
  rewrite Hd in Hd'. injection Hd' as <-.
  destruct (In_nth_error _ _ Hin) as (idx & Hnth). destruct (Hv idx v Hnth) as [Hne Heq].
  destruct (Nat.eq_dec idx (active_lane st1)) as [->|Hn].
  - destruct (Heq eq_refl) as [Htime _]. rewrite Ht in Htime. injection Htime as ->. reflexivity.
  - destruct (Hne Hn) as (_ & t' & _ & Htime). congruence.
Qed.

(** Every countdown a session draws satisfies [q] when an invariant [P]
    of the scheduler's states gives [q] of every new remaining time. *)
Lemma main_session_countdowns (P : state T -> Prop) (q : T -> Prop) choice w d frames cc o :
  selected_counts choice w d = Some cc -> length cc = 4 ->
  (forall st0, init_state cc (Timing.calculate_timers cc) = Ok st0 -> P st0) ->
  (forall st, P st -> wf (Timing.calculate_timers cc) st) ->
  (forall st st', P st -> frame (Timing.calculate_timers cc) st = Ok st' ->
     P st' /\ q (timer_remaining st')) ->
  main choice w d frames = Ok (Session o) ->
  Forall (fun r => forall v t, In v (drawn_signals r) -> view_time v = Countdown t -> q t)
    (outcome_trace o).
Proof.
  intros Hsel Hc Hinit Hwf Hstep Hmain.
  destruct (main_session_loop _ _ _ _ _ _ Hsel Hmain) as (st0 & Hi & Hl).
  refine (proj2 (main_loop_trace P _ _ cc _ frames st0 o (Hinit st0 Hi) Hl)).
  intros st st' r Hp Hb.
  destruct (Hstep st st' Hp (loop_body_frame _ _ _ _ _ Hb)) as [Hp' Hq].
  split; [exact Hp'|]. intros v t Hin Ht.
  rewrite (loop_body_countdown _ cc st st' r v t Hc (Hwf st Hp) Hb Hin Ht). exact Hq.
Qed.

Lemma loop_body_stats timers car_counts (st st' : state T) r :
  loop_body timers car_counts st = Ok (st', r) ->
  drawn_stats r = (cycles_completed st', total_vehicles st').
Proof.
  unfold loop_body. intros Hb. py_inv Hb. py_inv Hk. py_inv Hk0. py_inv Hk.
  injection Hk0 as <- <-. reflexivity.
Qed.

Lemma HdRel_Forall (a : nat) l : Forall (fun x => a <= x) l -> HdRel le a l.
Proof. intros [|x l' Hx _]; constructor. exact Hx. Qed.

(** Along the loop the statistics drawn keep the vehicle total and show a
    cycle count that never decreases. *)
Lemma main_loop_stats timers car_counts frames (st : state T) o :
  length car_counts = 4 -> wf timers st -> main_loop timers car_counts frames st = Ok o ->
  Forall (fun r => cycles_completed st <= fst (drawn_stats r) /\
                   snd (drawn_stats r) = total_vehicles st) (outcome_trace o) /\
  Sorted le (map (fun r => fst (drawn_stats r)) (outcome_trace o)).
Proof.
  intros Hc. revert st o. induction frames as [|evs rest IH]; intros st o Hwf Hl; cbn in Hl.
  - injection Hl as <-. split; constructor.
  - destruct (loop_body_ok timers car_counts st Hc Hwf) as (st1 & views & shapes & _ & _ & _ & Hb).
    rewrite Hb in Hl. cbn [py_bind] in Hl.
    pose proof (loop_body_stats _ _ _ _ _ Hb) as Hs. cbn [cycles_completed total_vehicles] in Hs.
    pose proof (loop_body_frame _ _ _ _ _ Hb) as Hf.
    destruct (frame_phase _ _ _ (proj2 Hwf) Hf) as [Hl' Hph]. unfold phase in Hph.
    destruct (frame_fields _ _ _ Hf) as [_ Htv].
    cbn [active_lane cycles_completed total_vehicles] in Hl', Hph, Htv.
    set (r0 := mkRendered views (draw_stats_panel (cycles_completed st1) (total_vehicles st1))
                 shapes) in *.
    assert (Hr : cycles_completed st <= fst (drawn_stats r0) /\
                 snd (drawn_stats r0) = total_vehicles st).
    { rewrite Hs. cbn [fst snd]. split; [destruct Hwf; lia | exact Htv]. }
    destruct (negb (quit_requested evs)).
    + py_inv Hl. injection Hk as <-.
      destruct (IH _ _ (loop_body_wf _ _ _ _ _ Hwf Hb) Ha) as [Hall Hsort].
      cbn [cycles_completed total_vehicles] in Hall.
      assert (Htr : forall o', outcome_trace (outcome_cons r0 o') = r0 :: outcome_trace o')
        by (intros []; reflexivity).
      rewrite Htr. split.
      * constructor; [exact Hr|]. refine (Forall_impl _ _ Hall).
        intros r [Hcy Hto]. split; [destruct Hwf; lia | rewrite Hto; exact Htv].
      * cbn [map]. constructor; [exact Hsort|]. apply HdRel_Forall.
        apply Forall_map. refine (Forall_impl _ _ Hall). intros r [Hcy _]. rewrite Hs. exact Hcy.
    + injection Hl as <-. cbn. split; [constructor; [exact Hr | constructor]|].
      repeat constructor.
Qed.

(** C15: the statistics panel of every frame a session draws shows the
    sum of the four counts as the vehicle total, and the cycle counts the
    frames show, in order, never decrease. *)
Theorem main_stats_panel choice w d frames cc o :
  selected_counts choice w d = Some cc -> length cc = 4 ->
  @main T _ choice w d frames = Ok (Session o) ->
  Forall (fun r => snd (drawn_stats r) = py_sum cc) (outcome_trace o) /\
  Sorted le (map (fun r => fst (drawn_stats r)) (outcome_trace o)).
Proof.
  intros Hsel Hc Hmain.
  destruct (main_session_loop _ _ _ _ _ _ Hsel Hmain) as (st0 & Hi & Hl).
  destruct (main_loop_stats _ _ _ _ _ Hc (init_state_wf _ _ Hc Hi) Hl) as [Hall Hsort].
  split; [|exact Hsort]. refine (Forall_impl _ _ Hall). intros r [_ ->].
  unfold init_state in Hi. py_inv Hi. injection Hk as <-. reflexivity.
Qed.

End Display_props.

(** [session_outcome t n o E Hl] destructs a concrete run [t] of [main]
    that [vm_compute] shows to be a session of [n] frames, without putting
    the frames' shapes in the proof. *)
Ltac session_outcome t n o E Hl :=
  let Hs := fresh "Hs" in
  assert (Hs : match t with Ok (Session _) => true | _ => false end = true)
    by (vm_compute; reflexivity);
  assert (Hl : match t with Ok (Session o') => length (outcome_trace o') | _ => 0%nat end = n)
    by (vm_compute; reflexivity);
  destruct t as [[| |o]|?] eqn:E; try discriminate Hs; clear Hs.

(** ** Witnesses: the counts of scenario B, a few frames, then [QUIT] *)

Lemma main_rejects_all_zero_witness :
  selected_counts "1" [0; 0; 0; 0]%Z [10; 2; 10; 2]%Z = Some [0; 0; 0; 0]%Z /\
  @main float _ "1" [0; 0; 0; 0]%Z [10; 2; 10; 2]%Z [[QUIT]] = Ok NoValidInput.
Proof.
  split; [reflexivity|]. apply main_rejects_all_zero. reflexivity.
Defined.

Lemma main_quit_stops_witness :
  exists st0 st tr,
    init_state [10; 2; 10; 2]%Z (@Timing.calculate_timers float _ [10; 2; 10; 2]%Z) = Ok st0 /\
    @main float _ "2" [0; 0; 0; 0]%Z [10; 2; 10; 2]%Z
      ([[OtherEvent]; []] ++ [OtherEvent; QUIT] :: [[QUIT]]) = Ok (Session (Exited st tr)) /\
    length tr = 3 /\
    run (Timing.calculate_timers [10; 2; 10; 2]%Z) 3 st0 = Ok st /\ frame_count st = 3.
Proof.
  apply (main_quit_stops "2" [0; 0; 0; 0]%Z [10; 2; 10; 2]%Z [10; 2; 10; 2]%Z
           [[OtherEvent]; []] [OtherEvent; QUIT] [[QUIT]]);
    [reflexivity | reflexivity | discriminate | repeat constructor | reflexivity].
Defined.

Lemma main_never_raises_witness :
  let imread := fun p : string => if String.eqb p "bad.jpg" then None else Some 1 in
  let detect := fun _ : nat => [2; 3; 0; 7]%Z in
  let steps := [Capture.Frame 0 Capture.key_s; Capture.Frame 0 Capture.key_s;
                Capture.Frame 0 Capture.key_s; Capture.Frame 0 Capture.key_s] in
  Capture.capture_one_by_one_images detect steps = Some [3; 3; 3; 3]%Z /\
  exists res, @main float _ "2" [3; 3; 3; 3]%Z
                (Capture.capture_from_file_dialog imread detect
                   ["a.jpg"; "bad.jpg"; "c.jpg"; "d.jpg"]%string)
                [[OtherEvent]; [QUIT]] = Ok res.
Proof.
  intros imread detect steps.
  assert (Hw : Capture.capture_one_by_one_images detect steps = Some [3; 3; 3; 3]%Z)
    by reflexivity.
  split; [exact Hw|].
  exact (main_never_raises imread detect _ steps _ "2" _ Hw).
Defined.

Lemma main_stats_panel_witness :
  exists o, @main float _ "1" [10; 2; 10; 2]%Z [0; 0; 0; 0]%Z [[OtherEvent]; []; [QUIT]]
              = Ok (Session o) /\
            (Forall (fun r => snd (drawn_stats r) = py_sum [10; 2; 10; 2]%Z) (outcome_trace o) /\
             Sorted le (map (fun r => fst (drawn_stats r)) (outcome_trace o))) /\
            length (outcome_trace o) = 3.
Proof.
  session_outcome (@main float _ "1" [10; 2; 10; 2]%Z [0; 0; 0; 0]%Z [[OtherEvent]; []; [QUIT]]) 3%nat o E Hlen.
  exists o. split; [reflexivity|]. split.
  - exact (main_stats_panel "1" _ _ _ [10; 2; 10; 2]%Z o eq_refl eq_refl E).
  - exact Hlen.
Defined.

End Session.
