(* ===== verification/Binary64.v ===== *)
(** * Binary64: the session at Python's floats

    [src/advanced_traffic_management.py] computes the green times (lines
    43-54) and the countdown (lines 250-255) with Python floats, IEEE
    binary64.  This file instantiates the generic results of [Phase.v]
    and [Session.v] at the primitive floats of Rocq, for every count from
    0 to [max_count] = 1000 (the YOLOv5 [AutoShape] model keeps at most
    [max_det = 1000] detections per image, so [count_vehicles] never
    exceeds it).  Counts from 14 on all give the green time [20.0], so
    a property of the phases of every count up to 1000 is a boolean
    check of the counts 0 to 14 ([phases_checked], made sound by
    [phase_check_spec]).  The facts every claim shares are computed once
    by [vm_compute]: each phase ends within [phase_fuel] frames and lasts
    at most [max_phase].  Each claim computes the check of its own
    property of the phases in its proof: that every countdown value
    draws the active signal safely, that it is positive and at most the
    green time, or that the phase lasts [ceil(30 t)] or [ceil(30 t) + 1]
    frames.  From that, at Python's floats:
    - the display is safe at every frame of a session;
    - every reachable state satisfies the spec's invariant;
    - a green phase lasts the real-valued duration or one frame more;
    - the cycle counter is [k / (L0 + L1 + L2 + L3)] for the binary64
      phase lengths;
    - no lane starves: every lane gets its full green time again within
      [4 * max_phase] frames of any state. *)

From Stdlib Require Import String.
From Stdlib Require Import ZArith QArith List Lia Floats.
Import ListNotations.
From S2P Require Import Prelude PyNum Timing Scheduler Phase Display Capture Session.

Local Open Scope nat_scope.

Module Binary64.
Import Scheduler Phase Display Session.

(** Frames searched for the end of a phase: more than [ceil(30 * 20) + 1]. *)
Definition phase_fuel : nat := 700.

(** The longest phase, [20.0] seconds at binary64. *)
Definition max_phase : nat := 601.

(** The largest count [count_vehicles] returns. *)
Definition max_count : Z := 1000.

Definition counts_in_range (car_counts : list Z) : Prop :=
  Forall (fun c => 0 <= c <= max_count)%Z car_counts.

(** The check [p t n L] of the binary64 phase of the green time [t] of
    count [c], where [L] is its length and [n] the real-valued
    [ceil(30 t)]; [false] when the phase does not end within
    [phase_fuel] frames. *)
Definition phase_check (p : float -> nat -> nat -> bool) (c : Z) : bool :=
  let t := @Timing.calculate_timer float _ c in
  match phase_length phase_fuel t with
  | Some L => p t (phase_frames (@Timing.calculate_timer Q _ c)) L
  | None => false
  end.

(** The check for the counts [0] to [14]: counts from [14] on all give
    the maximum green time [20.0]. *)
Definition phases_checked (p : float -> nat -> nat -> bool) : bool :=
  forallb (phase_check p) (map Z.of_nat (seq 0 15)).

Definition saturated_count (c : Z) : Z := Z.min c 14.

Definition same_green_time (c : Z) : bool :=
  PrimFloat.Leibniz.eqb (@Timing.calculate_timer float _ c)
    (@Timing.calculate_timer float _ (saturated_count c)) &&
  Nat.eqb (phase_frames (@Timing.calculate_timer Q _ c))
    (phase_frames (@Timing.calculate_timer Q _ (saturated_count c))).

(** The phases a check speaks of end and last at most [max_phase]
    frames. *)
Definition phase_bounded (t : float) (n L : nat) : bool := L <=? max_phase.

(** Every value of the countdown draws the active signal safely. *)
Definition phase_drawable (t : float) (n L : nat) : bool := countdown_all countdown_drawable t L.

(** Every value of the countdown is positive and at most the green time. *)
Definition phase_in_range (t : float) (n L : nat) : bool :=
  countdown_all (fun rm => py_ltb (py_of_Z 0) rm && py_leb rm t) t L.

(** The phase lasts [ceil(30 t)] frames or one more. *)
Definition phase_drift_le_1 (t : float) (n L : nat) : bool := (L =? n) || (L =? S n).

(** ** The computed facts every claim shares *)

Lemma all_counts_saturate :
  forallb same_green_time (map Z.of_nat (seq 0 (S (Z.to_nat max_count)))) = true.
Proof. vm_compute. reflexivity. Qed.

Lemma all_phases_bounded : phases_checked phase_bounded = true.
Proof. vm_compute. reflexivity. Qed.

(** ** From the computed checks to every count *)

Lemma forallb_counts (f : Z -> bool) (n c : Z) :
  forallb f (map Z.of_nat (seq 0 (S (Z.to_nat n)))) = true -> (0 <= c <= n)%Z -> f c = true.
Proof.
  intros Hall Hc. rewrite forallb_forall in Hall.
  apply Hall, in_map_iff. exists (Z.to_nat c). split; [apply Z2Nat.id; lia|].
  apply in_seq. lia.
Qed.

(** A count up to [max_count] has the green time of its saturated count. *)
Lemma saturated_green_time (c : Z) :
  (0 <= c <= max_count)%Z ->
  @Timing.calculate_timer float _ c = @Timing.calculate_timer float _ (saturated_count c) /\
  phase_frames (@Timing.calculate_timer Q _ c) =
  phase_frames (@Timing.calculate_timer Q _ (saturated_count c)).
Proof.
  intros Hc. pose proof (forallb_counts _ _ c all_counts_saturate Hc) as Hs.
  unfold same_green_time in Hs. apply andb_prop in Hs as [Hf Hq].
  split; [apply FloatAxioms.Leibniz.eqb_spec, Hf | apply Nat.eqb_eq, Hq].
Qed.

(** A check of the counts [0] to [14] holds of every count up to
    [max_count]. *)
Lemma phase_check_spec (p : float -> nat -> nat -> bool) (c : Z) :
  phases_checked p = true -> (0 <= c <= max_count)%Z ->
  exists L, phase_length phase_fuel (@Timing.calculate_timer float _ c) = Some L /\
    p (@Timing.calculate_timer float _ c) (phase_frames (@Timing.calculate_timer Q _ c)) L = true.
Proof.
  intros Hp Hc. destruct (saturated_green_time c Hc) as [Hf Hq].
  assert (Hs : phase_check p (saturated_count c) = true).
  { apply (forallb_counts _ 14 _ Hp). unfold saturated_count. lia. }
  unfold phase_check in Hs. rewrite <- Hf, <- Hq in Hs.
  destruct (phase_length phase_fuel _) as [L|]; [exists L; auto | discriminate].
Qed.

(** The green times of counts in range pass a check. *)
Lemma green_times_checked (p : float -> nat -> nat -> bool) (car_counts : list Z) :
  phases_checked p = true -> counts_in_range car_counts ->
  Forall (fun t => exists L n, phase_length phase_fuel t = Some L /\ p t n L = true)
         (@Timing.calculate_timers float _ car_counts).
Proof.
  intros Hp Hr. rewrite Timing.calculate_timers_map. apply Forall_map.
  refine (Forall_impl _ _ Hr). intros c Hc.
  destruct (phase_check_spec p c Hp Hc) as (L & HL & Hl). eauto.
Qed.

Lemma green_times_bounded (car_counts : list Z) :
  counts_in_range car_counts ->
  phases_bounded phase_fuel max_phase (@Timing.calculate_timers float _ car_counts).
Proof.
  intros Hr. refine (Forall_impl _ _ (green_times_checked _ _ all_phases_bounded Hr)).
  intros t (L & n & HL & Hb). exists L. split; [exact HL | apply Nat.leb_le, Hb].
Qed.

(** A property [q] of every countdown value of every phase, given by a
    check, holds of the remaining time of every state of a phase. *)
Lemma in_phase_countdown (q : float -> float -> bool) (car_counts : list Z) (st : state float) :
  phases_checked (fun t _ L => countdown_all (q t) t L) = true -> counts_in_range car_counts ->
  in_phase phase_fuel (@Timing.calculate_timers float _ car_counts) st ->
  exists t, nth_error (@Timing.calculate_timers float _ car_counts) (active_lane st) = Some t /\
            q t (timer_remaining st) = true.
Proof.
  intros Hp Hr (t & L & j & Ht & HL & Hj & ->).
  pose proof (green_times_checked _ _ Hp Hr) as Hall. rewrite Forall_forall in Hall.
  destruct (Hall t (nth_error_In _ _ Ht)) as (L' & n & HL' & Hd).
  rewrite HL in HL'. injection HL' as <-.
  exists t. split; [exact Ht | exact (proj1 (countdown_all_spec _ _ _) Hd j Hj)].
Qed.

(** The states a binary64 session reaches are in a phase. *)
Lemma session_in_phase cc (st0 st : state float) :
  length cc = 4 -> counts_in_range cc ->
  init_state cc (Timing.calculate_timers cc) = Ok st0 ->
  reachable (Timing.calculate_timers cc) st0 st ->
  in_phase phase_fuel (Timing.calculate_timers cc) st /\ wf (Timing.calculate_timers cc) st.
Proof.
  intros Hc Hr Hi Hreach. pose proof (phases_bounded_end _ _ _ (green_times_bounded _ Hr)) as Hends.
  exact (reachable_in_phase _ _ _ _ Hends (init_state_wf _ _ Hc Hi)
           (init_in_phase _ _ _ _ Hends Hi) Hreach).
Qed.

(** ** The session at binary64 *)

(** C1: display safety at Python's floats: with four counts of at most
    [max_count] vehicles, every frame a session draws shows four signals,
    all red but the active one, which lights exactly one lamp (yellow when
    [timer_remaining <= 3], green when [timer_remaining > 3]) and shows a
    positive countdown. *)
Theorem binary64_display_safety choice w d frames cc o :
  selected_counts choice w d = Some cc -> length cc = 4 -> counts_in_range cc ->
  @main float _ choice w d frames = Ok (Session o) ->
  Forall frame_safe (outcome_trace o).
Proof.
  intros Hsel Hc Hr.
  assert (Hlamps : phases_checked phase_drawable = true) by (vm_compute; reflexivity).
  pose proof (phases_bounded_end _ _ _ (green_times_bounded _ Hr)) as Hends.
  apply (main_session_safe (fun st => wf (Timing.calculate_timers cc) st /\
                                      in_phase phase_fuel (Timing.calculate_timers cc) st)
           _ _ _ _ _ _ Hsel Hc).
  - intros st0 Hi. exact (conj (init_state_wf _ _ Hc Hi) (init_in_phase _ _ _ _ Hends Hi)).
  - intros st [Hw _]. exact Hw.
  - intros st st' [Hw Hp] Hf.
    destruct (frame_wf _ _ Hw) as (s & Hs & Hws). rewrite Hf in Hs. injection Hs as <-.
    pose proof (frame_in_phase _ _ _ _ Hends Hw Hp Hf) as Hp'.
    split; [exact (conj Hws Hp')|].
    destruct (in_phase_countdown (fun _ => countdown_drawable) _ _ Hlamps Hr Hp') as (t & _ & Hd).
    exact Hd.
Qed.

(** C7: the invariant of a binary64 session, the spec's invariant of the
    scheduler state: with four counts of at most [max_count] vehicles,
    every state the loop reaches has its lane in [0..3] and a remaining
    time that is positive and at most the lane's green time
    [timers[active_lane]], comparing as Python compares floats. *)
Theorem binary64_session_invariant cc (st0 st : state float) :
  length cc = 4 -> counts_in_range cc ->
  init_state cc (Timing.calculate_timers cc) = Ok st0 ->
  reachable (Timing.calculate_timers cc) st0 st ->
  active_lane st < 4 /\
  exists t, nth_error (Timing.calculate_timers cc) (active_lane st) = Some t /\
    py_ltb (py_of_Z 0) (timer_remaining st) = true /\ py_leb (timer_remaining st) t = true.
Proof.
  intros Hc Hr Hi Hreach.
  assert (Hrange : phases_checked phase_in_range = true) by (vm_compute; reflexivity).
  destruct (session_in_phase cc st0 st Hc Hr Hi Hreach) as [Hp [_ Hl]].
  split; [exact Hl|].
  destruct (in_phase_countdown (fun t rm => py_ltb (py_of_Z 0) rm && py_leb rm t) _ _ Hrange Hr Hp)
    as (t & Ht & Hq).
  apply andb_prop in Hq as [Hpos Hle]. exists t. auto.
Qed.

(** C2: the drift of a phase at Python's floats is at most one frame: a
    lane given the green time of a count [c <= max_count] keeps the green
    for the first [L - 1] frames and hands it to the next lane at frame
    [L], where [L] is [ceil(30 t)] for the exact green time [t]
    ([phase_frames]) or one more. *)
Theorem binary64_phase_drift (c : Z) (timers : list float) (l cyc fc : nat) (tv : Z) (r : float) :
  (0 <= c <= max_count)%Z -> nth_error timers (next_lane l) = Some r ->
  let t := @Timing.calculate_timer float _ c in
  let n := phase_frames (@Timing.calculate_timer Q _ c) in
  exists L, (L = n \/ L = S n) /\
    (forall k, k < L -> run timers k (mkState l t cyc tv fc) =
                        Ok (mkState l (rem_after t k) cyc tv (fc + k))) /\
    run timers L (mkState l t cyc tv fc) =
    Ok (mkState (next_lane l) r (if Nat.eqb (next_lane l) 0 then S cyc else cyc) tv (fc + L)).
Proof.
  intros Hc Hr t n.
  assert (Hdrift : phases_checked phase_drift_le_1 = true) by (vm_compute; reflexivity).
  destruct (phase_check_spec _ c Hdrift Hc) as (L & HL & Hn).
  unfold phase_drift_le_1 in Hn. rewrite Bool.orb_true_iff, !Nat.eqb_eq in Hn.
  exists L. split; [exact Hn|]. split; [|exact (run_phase _ _ _ _ _ _ _ _ _ HL Hr)].
  intros k Hk. destruct (phase_length_spec _ _ _ HL) as (_ & Hpos & _).
  apply run_countdown_frames. intros k' Hk'. apply Hpos. lia.
Qed.

(** C8: the cycle counter at Python's floats: with counts
    [[c0; c1; c2; c3]] of at most [max_count] vehicles, the four phases
    last [L0], [L1], [L2] and [L3] frames, and [k] frames after the start
    [cycles_completed] is [k / (L0 + L1 + L2 + L3)]; after a whole number
    of cycles lane 0 is back with its full green time. *)
Theorem binary64_cycles_completed (c0 c1 c2 c3 : Z) (st0 : state float) :
  counts_in_range [c0; c1; c2; c3] ->
  init_state [c0; c1; c2; c3] (Timing.calculate_timers [c0; c1; c2; c3]) = Ok st0 ->
  exists L0 L1 L2 L3,
    phase_length phase_fuel (@Timing.calculate_timer float _ c0) = Some L0 /\
    phase_length phase_fuel (@Timing.calculate_timer float _ c1) = Some L1 /\
    phase_length phase_fuel (@Timing.calculate_timer float _ c2) = Some L2 /\
    phase_length phase_fuel (@Timing.calculate_timer float _ c3) = Some L3 /\
    forall k, exists st, run (Timing.calculate_timers [c0; c1; c2; c3]) k st0 = Ok st /\
      cycles_completed st = k / (L0 + L1 + L2 + L3) /\
      (k mod (L0 + L1 + L2 + L3) = 0 ->
       st = mkState 0 (Timing.calculate_timer c0) (k / (L0 + L1 + L2 + L3))
              (py_sum [c0; c1; c2; c3]) k).
Proof.
  intros Hr Hi. pose proof (green_times_bounded _ Hr) as Hb.
  rewrite Timing.calculate_timers_map in Hb, Hi |- *. cbn [map] in Hb, Hi |- *.
  apply Forall_cons_iff in Hb as [(L0 & H0 & _) Hb]. apply Forall_cons_iff in Hb as [(L1 & H1 & _) Hb].
  apply Forall_cons_iff in Hb as [(L2 & H2 & _) Hb]. apply Forall_cons_iff in Hb as [(L3 & H3 & _) _].
  exists L0, L1, L2, L3. do 4 (split; [assumption|]). intros k.
  unfold init_state, py_index in Hi. cbn [nth_error py_bind] in Hi. injection Hi as <-.
  set (S4 := L0 + L1 + L2 + L3).
  assert (HS : 0 < S4) by (pose proof (phase_length_pos _ _ _ H0); unfold S4; lia).
  pose proof (Nat.mod_upper_bound k S4 ltac:(lia)) as Hmod.
  set (timers := [Timing.calculate_timer c0; Timing.calculate_timer c1;
                  Timing.calculate_timer c2; Timing.calculate_timer c3]).
  assert (Hsplit : forall st, run timers k st =
                     py_bind (run timers (k / S4 * S4) st) (run timers (k mod S4))).
  { intros st. rewrite <- run_add. f_equal. pose proof (Nat.div_mod_eq k S4). lia. }
  rewrite Hsplit, (run_cycles_from _ _ _ _ _ _ _ _ _ _ 0 _ 0 H0 H1 H2 H3). cbn [py_bind].
  destruct (run_within_cycle _ _ _ _ _ _ _ _ _ (k mod S4) (0 + k / S4) (py_sum [c0; c1; c2; c3])
              (0 + k / S4 * S4) H0 H1 H2 H3 Hmod) as (st & Hst & Hcyc).
  exists st. split; [exact Hst|]. split; [lia|].
  intros Hm. rewrite Hm in Hst. cbn [run] in Hst. injection Hst as <-.
  pose proof (Nat.div_mod_eq k S4). f_equal; lia.
Qed.

(** C5: no lane starves at Python's floats: from any state a session with
    counts of at most [max_count] vehicles reaches, every lane [m] gets
    its full green time again between [1] and [4 * max_phase] frames
    later. *)
Theorem binary64_no_starvation cc (st0 st : state float) m :
  length cc = 4 -> counts_in_range cc ->
  init_state cc (Timing.calculate_timers cc) = Ok st0 ->
  reachable (Timing.calculate_timers cc) st0 st -> m < 4 ->
  exists k s, 1 <= k <= 4 * max_phase /\ run (Timing.calculate_timers cc) k st = Ok s /\
    active_lane s = m /\ nth_error (Timing.calculate_timers cc) m = Some (timer_remaining s).
Proof.
  intros Hc Hr Hi Hreach Hm.
  destruct (session_in_phase cc st0 st Hc Hr Hi Hreach) as [Hp Hw].
  exact (lane_reached _ _ _ _ _ (green_times_bounded _ Hr) Hw Hp Hm).
Qed.

(** ** Witnesses: scenario B *)

Lemma binary64_display_safety_witness :
  exists o, @main float _ "1" [10; 2; 10; 2]%Z [0; 0; 0; 0]%Z [[OtherEvent]; []; [QUIT]]
              = Ok (Session o) /\
            Forall frame_safe (outcome_trace o) /\ length (outcome_trace o) = 3.
Proof.
  session_outcome (@main float _ "1" [10; 2; 10; 2]%Z [0; 0; 0; 0]%Z [[OtherEvent]; []; [QUIT]]) 3%nat o E Hlen.
  exists o. split; [reflexivity|]. split.
  - refine (binary64_display_safety "1" _ _ _ [10; 2; 10; 2]%Z o eq_refl eq_refl _ E).
    unfold counts_in_range, max_count. repeat constructor; discriminate.
  - exact Hlen.
Defined.

(** Scenario B at Python's floats: a 15 s phase, [ceil(30 * 15) = 450]
    frames in real arithmetic, lasts 451 frames: after 450 frames lane 0
    still has the green. *)
Lemma binary64_phase_drift_witness :
  phase_frames (@Timing.calculate_timer Q _ 10) = 450 /\
  run [15; 5; 15; 5]%float 451 (mkState 0 15%float 0 24 0) = Ok (mkState 1 5%float 0 24 451) /\
  (forall k, k < 451 -> run [15; 5; 15; 5]%float k (mkState 0 15%float 0 24 0) =
                        Ok (mkState 0 (rem_after 15%float k) 0 24 (0 + k))).
Proof.
  destruct (binary64_phase_drift 10 [15; 5; 15; 5]%float 0 0 0 24 5%float
              ltac:(unfold max_count; lia) eq_refl) as (L & Hn & Hbefore & Hrun).
  assert (Hq : phase_frames (@Timing.calculate_timer Q _ 10) = 450) by (vm_compute; reflexivity).
  assert (H450 : py_bind (run [15; 5; 15; 5]%float 450
                            (mkState 0 (@Timing.calculate_timer float _ 10) 0 24 0))
                         (fun st => Ok (active_lane st)) = Ok 0) by (vm_compute; reflexivity).
  rewrite Hq in Hn. destruct Hn as [->| ->].
  - rewrite Hrun in H450. discriminate.
  - split; [exact Hq|]. split; [exact Hrun | exact Hbefore].
Defined.

Lemma binary64_no_starvation_witness :
  exists k s, 1 <= k <= 4 * max_phase /\
    run (@Timing.calculate_timers float _ [10; 2; 10; 2]%Z) k (mkState 0 15%float 0 24 0) = Ok s /\
    active_lane s = 3 /\ nth_error (@Timing.calculate_timers float _ [10; 2; 10; 2]%Z) 3 =
                         Some (timer_remaining s).
Proof.
  apply (binary64_no_starvation [10; 2; 10; 2]%Z (mkState 0 15%float 0 24 0)); [reflexivity | | |
    apply reach_init | lia].
  - unfold counts_in_range, max_count. repeat constructor; discriminate.
  - vm_compute. reflexivity.
Defined.

Lemma binary64_session_invariant_witness :
  let timers := @Timing.calculate_timers float _ [10; 2; 10; 2]%Z in
  active_lane (mkState 0 15%float 0 24 0) < 4 /\
  exists t, nth_error timers 0 = Some t /\ py_ltb (py_of_Z 0) 15%float = true /\
            py_leb 15%float t = true.
Proof.
  intros timers.
  exact (binary64_session_invariant [10; 2; 10; 2]%Z (mkState 0 15%float 0 24 0) _ eq_refl
           ltac:(unfold counts_in_range, max_count; repeat constructor; discriminate)
           eq_refl (reach_init _ _)).
Defined.

Lemma binary64_cycles_completed_witness :
  let timers := @Timing.calculate_timers float _ [10; 2; 10; 2]%Z in
  exists L st, run timers 1200 (mkState 0 15%float 0 24 0) = Ok st /\ cycles_completed st = 1200 / L.
Proof.
  intros timers.
  destruct (binary64_cycles_completed 10 2 10 2 (mkState 0 15%float 0 24 0)
              ltac:(unfold counts_in_range, max_count; repeat constructor; discriminate) eq_refl)
    as (L0 & L1 & L2 & L3 & _ & _ & _ & _ & Hk).
  destruct (Hk 1200) as (st & Hst & Hc & _).
  exists (L0 + L1 + L2 + L3), st. exact (conj Hst Hc).
Defined.

End Binary64.
