(* ===== verification/Text.v ===== *)
(** * Text: the strings the program draws

    Models the texts of [draw_signals] (lines 193-199) and
    [draw_stats_panel] (lines 206-212) of
    [src/advanced_traffic_management.py] and where they are blitted:
    - [py_str_int]: Python's [str] of an int ([f"{count}"],
      [f"{cycles}"], [f"{total_vehicles}"]), through the decimal digits of
      the standard library;
    - [py_format_1f]: Python's [f"{x:.1f}"] of a binary64 float: the exact
      value of the double, times 10, rounded to the nearest integer with
      ties to even (CPython's correctly rounded formatting), printed with
      its sign and one decimal;
    - the fonts of lines 31-33, and the blits: each text is drawn with its
      font at [x - width // 2] (centred) for the signals and at fixed
      positions for the panel.  The rendered width of a text and
      [str(float)] (the shortest repr, used for the total green time of
      an inactive signal) are collaborators, Section variables.
    [parse_1f] reads a [.1f] text back; it serves the computed check
    [phase_texts] of the countdown texts of a phase.  The theorems: the
    texts [draw_signals] blits for each signal; at binary64 the
    countdown texts of a phase never increase and end with [0.0], and no
    frame of a session shows a negative countdown. *)

From Stdlib Require Import String Ascii.
From Stdlib Require Import ZArith QArith List Lia Floats Sorted.
From Stdlib Require Import DecimalString DecimalZ DecimalPos.
Import ListNotations.
From S2P Require Import Prelude PyNum Timing Scheduler Phase Display Capture Session Binary64.

Local Open Scope Z_scope.

Module Text.
Import Scheduler Phase Display Session Binary64.

(** ** Numbers as Python prints them *)

(** [str(n)] for an int [n]. *)
Definition py_str_int (n : Z) : string := NilZero.string_of_int (Z.to_int n).

(** The integer nearest to [num / den] ([den > 0]), ties to the even one. *)
Definition round_half_even (num den : Z) : Z :=
  let q := num / den in
  let r := num mod den in
  match Z.compare (2 * r) den with
  | Lt => q
  | Gt => q + 1
  | Eq => if Z.even q then q else q + 1
  end.

(** The digits of [n / 10] with one decimal, for [n >= 0]. *)
Definition digits_1f (n : Z) : string :=
  (py_str_int (n / 10) ++ "." ++ py_str_int (n mod 10))%string.

(** [f"{x:.1f}"] for a binary64 float [x]. *)
Definition py_format_1f (x : float) : string :=
  match Prim2SF x with
  | S754_zero s => ((if s then "-" else "") ++ "0.0")%string
  | S754_infinity s => ((if s then "-" else "") ++ "inf")%string
  | S754_nan => "nan"
  | S754_finite s m e =>
      let tenths := if 0 <=? e then 10 * Zpos m * 2 ^ e
                    else round_half_even (10 * Zpos m) (2 ^ (- e)) in
      ((if s then "-" else "") ++ digits_1f tenths)%string
  end.

(** ** Reading the texts back *)

(** [int(s)] on the strings [str] produces. *)
Definition parse_int (s : string) : option Z :=
  option_map Z.of_int (NilZero.int_of_string s).

(** The text before and after the first ["."]. *)
Fixpoint split_dot (s : string) : option (string * string) :=
  match s with
  | EmptyString => None
  | String a s' =>
      if Ascii.eqb a "." then Some (EmptyString, s')
      else option_map (fun '(l, r) => (String a l, r)) (split_dot s')
  end.

(** The tenths a ["[-]d.d"] text shows. *)
Definition parse_unsigned_1f (s : string) : option Z :=
  match split_dot s with
  | Some (l, r) =>
      match parse_int l, parse_int r with
      | Some q, Some d => Some (10 * q + d)
      | _, _ => None
      end
  | None => None
  end.

Definition parse_1f (s : string) : option Z :=
  match s with
  | String a s' => if Ascii.eqb a "-" then option_map Z.opp (parse_unsigned_1f s')
                   else parse_unsigned_1f s
  | EmptyString => None
  end.

(** ** The texts and where they are drawn *)

(** The three fonts of lines 31-33, by their size. *)
Inductive font : Type :=
| font_large
| font_medium
| font_small.

Definition font_size (f : font) : Z :=
  match f with
  | font_large => 36
  | font_medium => 28
  | font_small => 20
  end.

(** [screen.blit(font.render(text, True, WHITE), pos)]. *)
Record blit : Type := mkBlit {
  blit_font : font;
  blit_text : string;
  blit_pos : Z * Z
}.

Section Blits.
(** The width of a rendered text ([text.get_width()]) and Python's
    [str] of a float are collaborators. *)
Variable text_width : font -> string -> Z.
Variable py_str_float : float -> string.

(** Line 195: [f"{timer_remaining:.1f}s"] on the active signal,
    [f"{total_time}s"] on the others. *)
Definition time_string (tt : time_text (T := float)) : string :=
  match tt with
  | Countdown r => (py_format_1f r ++ "s")%string
  | TotalTime t => (py_str_float t ++ "s")%string
  end.

(** Lines 193-199 for the signal at [(x, y)]: each text centred on [x]. *)
Definition signal_texts (x y : Z) (v : signal_view (T := float)) : list blit :=
  let dir_text := view_direction v in
  let count_text := (py_str_int (view_count v) ++ " cars")%string in
  let time_text := time_string (view_time v) in
  [mkBlit font_small dir_text (x - text_width font_small dir_text / 2, y + 105);
   mkBlit font_medium count_text (x - text_width font_medium count_text / 2, y + 125);
   mkBlit font_small time_text (x - text_width font_small time_text / 2, y + 145)].

(** The texts of [draw_signals] (lines 154-199). *)
Definition draw_signals_texts (active_lane : nat) (car_counts : list Z) (timers : list float)
    (timer_remaining : float) : PyResult (list blit) :=
  sigs <- signals car_counts timers ;;
  Ok (flat_map (fun '(idx, s) => signal_texts (sig_x s) (sig_y s)
                                   (signal_view_of active_lane timer_remaining idx s))
               (py_enumerate sigs)).

End Blits.

(** Lines 206-212. *)
Definition stats_texts (cycles : nat) (total_vehicles : Z) : list blit :=
  [mkBlit font_large "Traffic Statistics" (40, 30);
   mkBlit font_medium ("Cycles completed: " ++ py_str_int (Z.of_nat cycles)) (40, 70);
   mkBlit font_medium ("Total vehicles: " ++ py_str_int total_vehicles) (40, 100)].

(** ** The countdown texts of binary64 phases, as a computed check *)

Fixpoint all_some (l : list (option Z)) : option (list Z) :=
  match l with
  | [] => Some []
  | None :: _ => None
  | Some n :: l' => option_map (cons n) (all_some l')
  end.

Fixpoint nonincreasing (l : list Z) : bool :=
  match l with
  | a :: ((b :: _) as l') => (b <=? a) && nonincreasing l'
  | _ => true
  end.

(** The tenths [n] of a [.1f] text that is exactly [digits_1f n], with
    no sign. *)
Definition unsigned_tenths (x : float) : option Z :=
  let s := py_format_1f x in
  match parse_1f s with
  | Some n => if String.eqb s (digits_1f n) then Some n else None
  | None => None
  end.

(** The tenths the [.1f] countdown shows at each frame of a binary64
    phase that begins with [t] and lasts [L] frames: unsigned, all
    between [0.0] and [20.0], never increasing, and [0.0] on the last
    frame. *)
Definition phase_texts (t : float) (n L : nat) : bool :=
  match all_some (map unsigned_tenths (countdown_values t L)) with
  | Some ns => forallb (fun n => (0 <=? n) && (n <=? 200)) ns && nonincreasing ns &&
               Z.eqb (nth (L - 1) ns (-1)) 0
  | None => false
  end.

(** ** Lemmas *)

(** ** The countdown texts at binary64 *)

Lemma all_some_map l ns : all_some l = Some ns -> l = map Some ns.
Proof.
  revert ns. induction l as [|[n|] l IH]; intros ns H; cbn in H; try discriminate.
  - injection H as <-. reflexivity.
  - destruct (all_some l) as [ns'|]; [|discriminate]. injection H as <-.
    cbn. rewrite (IH ns' eq_refl). reflexivity.
Qed.

Lemma nonincreasing_Sorted l : nonincreasing l = true -> Sorted Z.ge l.
Proof.
  induction l as [|a [|b l] IH]; intros H; [constructor | repeat constructor|].
  cbn [nonincreasing] in H. apply andb_prop in H as [Hab H]. apply Z.leb_le in Hab.
  constructor; [exact (IH H) | constructor; lia].
Qed.

(** What the computed check gives for a count up to [max_count]: the
    tenths [ns] shown at the frames of its phase. *)
Lemma countdown_texts_spec (c : Z) :
  phases_checked phase_texts = true -> 0 <= c <= max_count ->
  let t := @Timing.calculate_timer float _ c in
  exists L ns, phase_length phase_fuel t = Some L /\ length ns = L /\
    (forall j, (j < L)%nat -> py_format_1f (rem_after t j) = digits_1f (nth j ns 0)) /\
    Forall (fun n => 0 <= n <= 200) ns /\ Sorted Z.ge ns /\ nth (L - 1) ns (-1) = 0.
Proof.
  intros Hcheck Hc t. destruct (phase_check_spec _ c Hcheck Hc) as (L & Hphase & Hk).
  fold t in Hphase, Hk. unfold phase_texts in Hk.
  destruct (all_some _) as [ns|] eqn:Ha; [|discriminate].
  apply all_some_map in Ha. rewrite !Bool.andb_true_iff, Z.eqb_eq in Hk.
  destruct Hk as [[Hr Hn] Hl].
  assert (HL : length ns = L)
    by (rewrite <- (length_map Some), <- Ha, length_map; apply length_countdown_values).
  exists L, ns. split; [exact Hphase|]. split; [exact HL|]. split.
  - intros j Hj. assert (E := f_equal (fun l => nth_error l j) Ha). cbn beta in E.
    rewrite !nth_error_map, nth_error_countdown_values in E by exact Hj. cbn [option_map] in E.
    destruct (nth_error ns j) as [n|] eqn:En; [|discriminate]. injection E as E.
    rewrite (nth_error_nth _ _ _ En). unfold unsigned_tenths in E.
    destruct (parse_1f _) as [n'|]; [|discriminate].
    destruct (String.eqb_spec (py_format_1f (rem_after t j)) (digits_1f n')) as [Es|];
      [|discriminate].
    injection E as ->. exact Es.
  - split; [|split; [exact (nonincreasing_Sorted _ Hn) | exact Hl]].
    rewrite forallb_forall in Hr. apply Forall_forall. intros n Hin.
    specialize (Hr n Hin). rewrite Bool.andb_true_iff, !Z.leb_le in Hr. exact Hr.
Qed.

(** C3: the countdown of every frame of a binary64 session with counts
    of at most [max_count] vehicles is drawn as an unsigned [.1f] text
    between [0.0] and [20.0]: the display never shows a negative
    countdown, not even [-0.0]. *)
Theorem binary64_countdown_display choice w d frames cc o :
  selected_counts choice w d = Some cc -> length cc = 4%nat -> counts_in_range cc ->
  @main float _ choice w d frames = Ok (Session o) ->
  Forall (fun r => forall v t, In v (drawn_signals r) -> view_time v = Countdown t ->
            exists n, py_format_1f t = digits_1f n /\ 0 <= n <= 200) (outcome_trace o).
Proof.
  assert (Hcheck : phases_checked phase_texts = true) by (vm_compute; reflexivity).
  intros Hsel Hc Hr. pose proof (phases_bounded_end _ _ _ (green_times_bounded _ Hr)) as Hends.
  apply (main_session_countdowns (fun st => wf (Timing.calculate_timers cc) st /\
                                            in_phase phase_fuel (Timing.calculate_timers cc) st)
           _ _ _ _ _ _ _ Hsel Hc).
  - intros st0 Hi. exact (conj (init_state_wf _ _ Hc Hi) (init_in_phase _ _ _ _ Hends Hi)).
  - intros st [Hw _]. exact Hw.
  - intros st st' [Hw Hp] Hf.
    destruct (frame_wf _ _ Hw) as (s & Hs & Hws). rewrite Hf in Hs. injection Hs as <-.
    pose proof (frame_in_phase _ _ _ _ Hends Hw Hp Hf) as Hp'.
    split; [exact (conj Hws Hp')|].
    destruct Hp' as (t & L & j & Ht & HL & Hj & ->).
    rewrite Timing.calculate_timers_map in Ht. apply nth_error_In, in_map_iff in Ht as (c & <- & Hin).
    unfold counts_in_range in Hr. rewrite Forall_forall in Hr.
    destruct (countdown_texts_spec c Hcheck (Hr c Hin)) as (L' & ns & HL' & Hlen & Hshow & Hrange & _).
    rewrite HL in HL'. injection HL' as <-.
    exists (nth j ns 0). split; [exact (Hshow j Hj)|].
    rewrite Forall_forall in Hrange. apply Hrange, nth_In. lia.
Qed.


(** C23: the texts of [draw_signals]: for four counts and four green
    times it blits twelve texts, three per signal in the order of the
    table: the direction in the small font, ["<count> cars"] with the
    approach's count in the medium font, and in the small font the
    [.1f] countdown of the remaining time on the active signal and
    [str] of the signal's own green time on the others. *)
Theorem draw_signals_texts_spec (text_width : font -> string -> Z) (py_str_float : float -> string)
    (active_lane : nat) (car_counts : list Z) (timers : list float) (rm : float) (idx : nat) :
  length car_counts = 4%nat -> length timers = 4%nat -> (idx < 4)%nat ->
  exists bl, draw_signals_texts text_width py_str_float active_lane car_counts timers rm = Ok bl /\
    length bl = 12%nat /\
    map blit_font (firstn 3 (skipn (3 * idx) bl)) = [font_small; font_medium; font_small] /\
    map blit_text (firstn 3 (skipn (3 * idx) bl)) =
      [nth idx ["North"; "East"; "South"; "West"]%string EmptyString;
       (py_str_int (nth idx car_counts 0) ++ " cars")%string;
       if Nat.eqb active_lane idx then (py_format_1f rm ++ "s")%string
       else (py_str_float (nth idx timers rm) ++ "s")%string].
Proof.
  intros Hc Ht Hi.
  destruct (signals_length_4 car_counts timers Hc Ht)
    as (c0 & c1 & c2 & c3 & t0 & t1 & t2 & t3 & -> & ->).
  unfold draw_signals_texts. rewrite signals_four. eexists. split; [reflexivity|].
  split; [reflexivity|].
  destruct idx as [|[|[|[|idx]]]]; [..|lia]; cbn;
    (split; [reflexivity|]); destruct (Nat.eqb active_lane _); reflexivity.
Qed.

(** ** Witnesses: scenario B at binary64 *)


Lemma binary64_countdown_display_witness :
  exists o, @main float _ "1" [10; 2; 10; 2] [0; 0; 0; 0] [[OtherEvent]; []; [QUIT]]
              = Ok (Session o) /\
    Forall (fun r => forall v t, In v (drawn_signals r) -> view_time v = Countdown t ->
              exists n, py_format_1f t = digits_1f n /\ 0 <= n <= 200) (outcome_trace o) /\
    length (outcome_trace o) = 3%nat.
Proof.
  session_outcome (@main float _ "1" [10; 2; 10; 2] [0; 0; 0; 0] [[OtherEvent]; []; [QUIT]]) 3%nat o E Hlen.
  exists o. split; [reflexivity|]. split.
  - refine (binary64_countdown_display "1" _ _ _ [10; 2; 10; 2] o eq_refl eq_refl _ E).
    unfold counts_in_range, max_count. repeat constructor; discriminate.
  - exact Hlen.
Defined.

Lemma draw_signals_texts_spec_witness :
  exists bl, draw_signals_texts (fun _ s => 8 * Z.of_nat (String.length s)) (fun _ => "5.0"%string)
               1 [10; 2; 10; 2] [15; 5; 15; 5]%float 4.5%float = Ok bl /\
    length bl = 12%nat /\
    map blit_font (firstn 3 (skipn (3 * 1) bl)) = [font_small; font_medium; font_small] /\
    map blit_text (firstn 3 (skipn (3 * 1) bl)) =
      [nth 1 ["North"; "East"; "South"; "West"]%string EmptyString;
       (py_str_int (nth 1 [10; 2; 10; 2] 0) ++ " cars")%string;
       if Nat.eqb 1 1 then (py_format_1f 4.5%float ++ "s")%string
       else ("5.0" ++ "s")%string].
Proof.
  exact (draw_signals_texts_spec (fun _ s => 8 * Z.of_nat (String.length s)) (fun _ => "5.0"%string)
           1 [10; 2; 10; 2] [15; 5; 15; 5]%float 4.5%float 1 eq_refl eq_refl ltac:(lia)).
Defined.

End Text.
